(** * imagenet-resnet-horovod.py: learning-rate policy, argument checks and
      cross-worker error aggregation of the Horovod ResNet trainer.

    The script is glue code over tensorpack and Horovod.  The embedding keeps
    the script's own control flow and arithmetic and represents the objects it
    hands to the frameworks (callbacks, dataflows, the train configuration)
    as plain data, and the calls it makes into the frameworks as events of a
    trace.

    Numbers.  Python integers are [Z].  The float32 tensors of the error
    reduction are modelled with their rounding: 24 significant bits, ties to
    even, infinities.  Python floats (binary64) are modelled by exact
    rationals [Q]: no rounding and no overflow.  The two comparisons the
    script makes on floats ([BASE_LR > 0.1], [loss_scale != 1.0]) have the
    same outcome on binary64 for an integer multiple of 0.1 and for a
    reciprocal of a positive integer, and the quotient [1281167 / total_batch]
    is never close enough to a half-integer for binary64 rounding to change
    what [np.round] returns.  The script is read with Python 3 semantics
    ([/] on integers is true division, [//] is floor division). *)

From Stdlib Require Import ZArith QArith Qround Qabs List String DecimalString Lia Lqa.
From Stdlib Require Import DecimalPos DecimalZ Permutation.
From stdpp Require Import gmap strings.
Import ListNotations.

Local Open Scope string_scope.
Local Open Scope list_scope.
Local Open Scope Z_scope.

(** ** Data handed to the frameworks *)

(** [fbresnet_augmentor(isTrain)] *)
Inductive augmentor :=
| fbresnet_augmentor (isTrain : bool).

(** Dataflows and input sources. *)
Inductive dataflow :=
| FakeData (shapes : list (list Z)) (size : Z) (random : bool) (dtype : list string)
| ValDataflow (datadir : option string) (batch_size : Z) (augs : augmentor)
              (splits : option (Z * Z)).

Inductive input_source :=
| QueueInput (df : dataflow)
| ZMQInput (end_point : string) (hwm : Z) (bind : bool)
| StagingInput (inp : input_source) (nr_stage : option Z).

(** Inferencers: the stock [ClassificationError] and the subclass of the
    script. *)
Inductive inferencer :=
| ClassificationError (wrong_tensor_name summary_name : string)
| HorovodClassificationError (wrong_tensor_name summary_name : string).

Inductive callback :=
| ModelSaver (max_to_keep : Z)
| EstimatedTimeLeft
| ScheduledHyperParamSetter (param : string) (schedule : list (Z * Q))
                            (interp : option string) (step_based : bool)
| InferenceRunner (input : input_source) (infs : list inferencer) (chief_only : bool).

(** [class Model(ImageNetModel)]: the two attributes [__init__] sets. *)
Record Model := {
  _loss_scale : Q;
  num_blocks : list Z
}.

Record TrainConfig := {
  model : Model;
  data : input_source;
  callbacks : list callback;
  steps_per_epoch : Z;
  max_epoch : Z
}.

Inductive trainer :=
| HorovodTrainer (average : bool).

Inductive sess_init :=
| ModelLoader (filename : option string).

(** ** Command line *)

Inductive validation_mode := distributed | master.

(** [args.validation == 'master'] and [args.validation == 'distributed'] *)
Definition validation_eqb (a b : validation_mode) : bool :=
  match a, b with
  | distributed, distributed | master, master => true
  | _, _ => false
  end.

(** The namespace [parser.parse_args()] returns. *)
Record Args := {
  arg_data : option string;
  arg_logdir : string;
  arg_load : option string;
  arg_fake : bool;
  arg_depth : Z;
  arg_eval : bool;
  arg_validation : option validation_mode;
  arg_batch : Z
}.

(** ** Calls into the frameworks *)

Inductive fmt_arg :=
| FInt (z : Z)
| FFloat (q : Q)
| FStr (s : string).

Inductive event :=
| logger_info (fmt : string) (fargs : list fmt_arg)
| get_val_dataflow (datadir : option string) (batch_size : Z) (augs : augmentor)
                   (splits : option (Z * Z))
| ImageNetModel_init (data_format : string)
| get_model_loader (filename : option string)
| eval_on_ILSVRC12 (m : Model) (s : sess_init) (ds : dataflow)
| hvd_init
| logger_set_logger_dir (dir : string) (action : string)
| launch_train_with_config (config : TrainConfig) (t : trainer).

Inductive exn :=
| AssertionError
| KeyError (key : Z)
| ZeroDivisionError
| ExternalError (e : event).

(** A computation appends the calls it makes to the trace and either returns
    or raises. *)
Definition M (A : Type) : Type := list event -> list event * (exn + A).

Definition ret {A} (a : A) : M A := fun tr => (tr, inr a).

Definition raise {A} (e : exn) : M A := fun tr => (tr, inl e).

Definition bind {A B} (m : M A) (k : A -> M B) : M B :=
  fun tr =>
    match m tr with
    | (tr', inl e) => (tr', inl e)
    | (tr', inr a) => k a tr'
    end.

Notation "'let*' x ':=' m 'in' k" := (bind m (fun x => k))
  (at level 10, x name, m at level 100, k at level 200).
Notation "'do' m 'then' k" := (bind m (fun _ => k))
  (at level 10, m at level 100, k at level 200).

(** [assert cond] *)
Definition assert (cond : bool) : M unit :=
  if cond then ret tt else raise AssertionError.

(** Python's [{}.format] of an integer. *)
Definition str (z : Z) : string := NilZero.string_of_int (Z.to_int z).

(** True division of an integer by an integer. *)
Definition true_div (a b : Z) : M Q :=
  if b =? 0 then raise ZeroDivisionError else ret (inject_Z a / inject_Z b)%Q.

(** Division of a float by an integer. *)
Definition float_div (a : Q) (b : Z) : M Q :=
  if b =? 0 then raise ZeroDivisionError else ret (a / inject_Z b)%Q.

(** [int(np.round(q))]: the nearest integer, a tie going to the even one. *)
Definition np_round (q : Q) : Z :=
  let f := Qfloor q in
  match (q - inject_Z f ?= 1 # 2)%Q with
  | Lt => f
  | Gt => f + 1
  | Eq => if Z.even f then f else f + 1
  end.

(** Float comparisons. *)
Definition Qgtb (a b : Q) : bool :=
  match (a ?= b)%Q with Gt => true | _ => false end.

Definition Qneb (a b : Q) : bool := negb (Qeq_bool a b).

(** ** The model *)

(** Tensors of the graph, as far as the script builds them: the cost the base
    class returns for the named input tensors, and a product with a Python
    float. *)
Inductive tensor :=
| ImageNetModel_build_graph (inputs : list string)
| Mul (t : tensor) (c : Q).

(** The number a cost tensor evaluates to, given the number the cost of the
    base class evaluates to. *)
Fixpoint tensor_value (base : list string -> Q) (t : tensor) : Q :=
  match t with
  | ImageNetModel_build_graph inputs => base inputs
  | Mul t' c => (tensor_value base t' * c)%Q
  end.

(** [Model.build_graph] *)
Definition build_graph (self : Model) (inputs : list string) : tensor :=
  let cost := ImageNetModel_build_graph inputs in
  if Qneb (_loss_scale self) 1 then Mul cost (_loss_scale self) else cost.

(** The dictionary literal of [Model.__init__]. *)
Definition num_blocks_table : gmap Z (list Z) :=
  {[ 50 := [3; 4; 6; 3]; 101 := [3; 4; 23; 3]; 152 := [3; 8; 36; 3] ]}.

(** [0.1 * (total_batch // 256)], the value [get_config] binds to [BASE_LR]. *)
Definition BASE_LR (total_batch : Z) : Q :=
  (0.1 * inject_Z (total_batch / 256))%Q.

Section Program.

(** What the process cannot decide by itself: whether a call into a
    framework raises (given the calls made so far), the size and rank
    Horovod reports, and the host name. *)
Variable raises : list event -> event -> bool.
Variable hvd_size : Z.
Variable hvd_rank : Z.
Variable hostname : string.

Definition call (e : event) : M unit :=
  fun tr =>
    if raises tr e then (tr ++ [e], inl (ExternalError e))
    else (tr ++ [e], inr tt).

(** [Model.__init__] *)
Definition Model_init (depth : Z) (loss_scale : Q) : M Model :=
  do call (ImageNetModel_init "NCHW") then
  match num_blocks_table !! depth with
  | Some blocks => ret {| _loss_scale := loss_scale; num_blocks := blocks |}
  | None => raise (KeyError depth)
  end.

(** [get_config].  The pair bound first is [(data, steps_per_epoch)] as the
    two branches on [fake] leave them ([callbacks = []] of the fake branch is
    overwritten before it is read); [np_round q] is [int(np.round(q))]. *)
Definition get_config (args : Args) (model : Model) (fake : bool) : M TrainConfig :=
  let batch := arg_batch args in
  let total_batch := batch * hvd_size in
  let* ds :=
    (if fake then
       let data := FakeData [[arg_batch args; 224; 224; 3]; [arg_batch args]] 1000
                            false ["uint8"; "int32"] in
       let data := StagingInput (QueueInput data) None in
       ret (data, 50)
     else
       do call (logger_info "#Tower: {}; Batch size per tower: {}"
                            [FInt hvd_size; FInt batch]) then
       let data := ZMQInput ("ipc://@imagenet-train-b" +:+ str batch) 30 false in
       let data := StagingInput data (Some 1) in
       let* q := true_div 1281167 total_batch in
       ret (data, np_round q)) in
  let data := fst ds in
  let steps_per_epoch := snd ds in
  let base_lr := BASE_LR total_batch in
  do call (logger_info "Base LR: {}" [FFloat base_lr]) then
  let callbacks :=
    [ ModelSaver 100;
      EstimatedTimeLeft;
      ScheduledHyperParamSetter "learning_rate"
        [(30, (base_lr * 1e-1)%Q); (60, (base_lr * 1e-2)%Q);
         (80, (base_lr * 1e-3)%Q)] None false ] in
  let callbacks :=
    if Qgtb base_lr 0.1 then
      callbacks ++
      [ ScheduledHyperParamSetter "learning_rate"
          [(0, 0.1%Q); (5 * steps_per_epoch, base_lr)] (Some "linear") true ]
    else callbacks in
  let* callbacks :=
    match arg_validation args with
    | None => ret callbacks
    | Some v =>
        if validation_eqb v master && (hvd_rank =? 0) then
          do call (get_val_dataflow (arg_data args) 64 (fbresnet_augmentor false) None) then
          let dataset_val := ValDataflow (arg_data args) 64 (fbresnet_augmentor false) None in
          let infs := [ ClassificationError "wrong-top1" "val-error-top1";
                        ClassificationError "wrong-top5" "val-error-top5" ] in
          ret (callbacks ++ [InferenceRunner (QueueInput dataset_val) infs true])
        else if validation_eqb v distributed then
          do call (get_val_dataflow (arg_data args) 64 (fbresnet_augmentor false)
                                    (Some (hvd_size, hvd_rank))) then
          let dataset_val := ValDataflow (arg_data args) 64 (fbresnet_augmentor false)
                                         (Some (hvd_size, hvd_rank)) in
          let infs := [ HorovodClassificationError "wrong-top1" "val-error-top1";
                        HorovodClassificationError "wrong-top5" "val-error-top5" ] in
          ret (callbacks ++ [InferenceRunner (QueueInput dataset_val) infs false])
        else ret callbacks
    end in
  ret {| model := model;
         data := data;
         callbacks := callbacks;
         steps_per_epoch := steps_per_epoch;
         max_epoch := if arg_fake args then 35 else 90 |}.

(** The body under [if __name__ == '__main__'], after argument parsing. *)
Definition main (args : Args) : M unit :=
  do call (logger_info "Running on {}" [FStr hostname]) then
  if arg_eval args then
    let batch := 128 in
    do call (get_val_dataflow (arg_data args) batch (fbresnet_augmentor false) None) then
    let ds := ValDataflow (arg_data args) batch (fbresnet_augmentor false) None in
    let* model := Model_init (arg_depth args) 1 in
    do call (get_model_loader (arg_load args)) then
    call (eval_on_ILSVRC12 model (ModelLoader (arg_load args)) ds)
  else
    do assert (match arg_load args with None => true | Some _ => false end) then
    do call hvd_init then
    do (if hvd_rank =? 0 then call (logger_set_logger_dir (arg_logdir args) "d")
        else ret tt) then
    let* loss_scale := float_div 1 hvd_size in
    let* model := Model_init (arg_depth args) loss_scale in
    let* config := get_config args model (arg_fake args) in
    let trainer := HorovodTrainer false in
    call (launch_train_with_config config trainer).

End Program.

(** ** Cross-worker classification error *)

(** tensorpack's [RatioCounter], as [err_stat.total] and [err_stat.count]
    read it: the number of examples seen and the number of wrong ones. *)
Record RatioCounter := {
  total : Z;
  count : Z
}.

(** An integer rounded to [p] significant bits, a tie going to the even
    significand: what a binary float of precision [p] holds of it. *)
Definition round_to_bits (p z : Z) : Z :=
  let a := Z.abs z in
  if a <? 2 ^ p then z
  else
    let e := Z.log2 a + 1 - p in
    let m := a / 2 ^ e in
    let r := a mod 2 ^ e in
    let m' := match r ?= 2 ^ (e - 1) with
              | Lt => m
              | Gt => m + 1
              | Eq => if Z.even m then m else m + 1
              end in
    Z.sgn z * (m' * 2 ^ e).

(** The values of the float32 tensors of the reduction: they hold integers
    here, or an infinity, or no number. *)
Inductive float32 :=
| F32 (z : Z)
| F32_inf (negative : bool)
| F32_nan.

(** A number rounded to float32: 24 significant bits, and an infinity from
    2^128 on. *)
Definition f32_round (z : Z) : float32 :=
  let f := round_to_bits 24 z in
  if 2 ^ 128 <=? Z.abs f then F32_inf (z <? 0) else F32 f.

(** An integer held by a Python number, converted for a float32 placeholder:
    through binary64 (53 significant bits; [None] when the integer is too
    large for a float and the conversion raises [OverflowError]) and from
    there to float32. *)
Definition to_float32 (z : Z) : option float32 :=
  let d := round_to_bits 53 z in
  if 2 ^ 1024 <=? Z.abs d then None else Some (f32_round d).

(** The float32 sum. *)
Definition f32_add (x y : float32) : float32 :=
  match x, y with
  | F32 a, F32 b => f32_round (a + b)
  | F32_nan, _ | _, F32_nan => F32_nan
  | F32_inf n, F32_inf n' => if Bool.eqb n n' then F32_inf n else F32_nan
  | F32_inf n, F32 _ | F32 _, F32_inf n => F32_inf n
  end.

(** Element-wise sum of two float32 tensors of rank one. *)
Fixpoint tensor_add (a b : list float32) : list float32 :=
  match a, b with
  | x :: a', y :: b' => f32_add x y :: tensor_add a' b'
  | _, _ => []
  end.

(** [hvd.allreduce(tensor, average=False)]: every worker feeds a tensor and
    every worker receives the same result, the element-wise float32 sum of
    what was fed, here formed in the order of the ranks. *)
Definition allreduce_sum (fed : list (list float32)) : list float32 :=
  match fed with
  | [] => []
  | t :: ts => fold_left tensor_add ts t
  end.

(** The value a worker feeds to the float32 placeholder [to_be_reduced]: its
    total and its count, in this order ([None] when the conversion raises). *)
Definition feed_dict (err_stat : RatioCounter) : option (list float32) :=
  let tot := total err_stat in
  let cnt := count err_stat in
  match to_float32 tot, to_float32 cnt with
  | Some t, Some c => Some [t; c]
  | _, _ => None
  end.

(** The feeds of all workers, by rank. *)
Fixpoint feeds (err_stats : list RatioCounter) : option (list (list float32)) :=
  match err_stats with
  | [] => Some []
  | s :: rest =>
      match feed_dict s, feeds rest with
      | Some f, Some fs => Some (f :: fs)
      | _, _ => None
      end
  end.

(** [cnt * 1. / tot] on the two reduced values, a division of floats in
    numpy: [None] when the result is an infinity or no number. *)
Definition np_true_divide (cnt tot : float32) : option Q :=
  match cnt, tot with
  | F32 c, F32 t => if t =? 0 then None else Some (inject_Z c * 1 / inject_Z t)%Q
  | F32 _, F32_inf _ => Some 0%Q
  | _, _ => None
  end.

(** [HorovodClassificationError._after_inference], given the [err_stat] of
    every worker (by rank): the number every worker reports under
    [summary_name].  [_setup_graph] builds the reduction over the float32
    placeholder with [average=False].  [None] stands for a run that reports
    no finite number: a feed that raises, a result that is an infinity or no
    number, or a reduction that does not unpack into two values. *)
Definition _after_inference (err_stats : list RatioCounter) : option Q :=
  match feeds err_stats with
  | None => None
  | Some fed =>
      let _reduced := allreduce_sum fed in
      match _reduced with
      | [tot; cnt] => np_true_divide cnt tot
      | _ => None
      end
  end.

(** The alternative the aggregation is compared with: every worker divides
    locally and the ratios are averaged. *)
Definition mean_of_local_ratios (err_stats : list RatioCounter) : Q :=
  (fold_right Qplus 0 (map (fun s => inject_Z (count s) / inject_Z (total s)) err_stats)
   / inject_Z (Z.of_nat (length err_stats)))%Q.

Definition sum_total (err_stats : list RatioCounter) : Z :=
  fold_right Z.add 0 (map total err_stats).

Definition sum_count (err_stats : list RatioCounter) : Z :=
  fold_right Z.add 0 (map count err_stats).

(** The counts float32 holds as they are: no total and no count is negative,
    and the totals, and the counts, add up to at most 2^24. *)
Definition float32_exact (err_stats : list RatioCounter) : Prop :=
  Forall (fun s => 0 <= total s /\ 0 <= count s) err_stats /\
  sum_total err_stats <= 2 ^ 24 /\
  sum_count err_stats <= 2 ^ 24.

(** ** Observations on a configuration *)

(** The step-based setters among the callbacks: the warmup. *)
Definition is_warmup (cb : callback) : bool :=
  match cb with
  | ScheduledHyperParamSetter _ _ _ true => true
  | _ => false
  end.

(** The epoch-based setters among the callbacks: the decay. *)
Definition is_decay (cb : callback) : bool :=
  match cb with
  | ScheduledHyperParamSetter _ _ _ false => true
  | _ => false
  end.

(** The value a schedule carries at a point. *)
Fixpoint schedule_at (e : Z) (schedule : list (Z * Q)) : option Q :=
  match schedule with
  | [] => None
  | (e', v) :: rest => if e' =? e then Some v else schedule_at e rest
  end.

Definition schedule_of (cb : callback) : list (Z * Q) :=
  match cb with
  | ScheduledHyperParamSetter _ schedule _ _ => schedule
  | _ => []
  end.

(** No call into a framework raises. *)
Definition quiet (raises : list event -> event -> bool) : Prop :=
  forall tr e, raises tr e = false.

(** The callbacks that set the learning rate, as [get_config] assembles
    them. *)
Definition lr_callbacks (steps total_batch : Z) : list callback :=
  [ ModelSaver 100;
    EstimatedTimeLeft;
    ScheduledHyperParamSetter "learning_rate"
      [(30, (BASE_LR total_batch * 1e-1)%Q); (60, (BASE_LR total_batch * 1e-2)%Q);
       (80, (BASE_LR total_batch * 1e-3)%Q)] None false ] ++
  (if Qgtb (BASE_LR total_batch) 0.1 then
     [ ScheduledHyperParamSetter "learning_rate"
         [(0, 0.1%Q); (5 * steps, BASE_LR total_batch)] (Some "linear") true ]
   else []).

Definition is_inference_runner (cb : callback) : bool :=
  match cb with
  | InferenceRunner _ _ _ => true
  | _ => false
  end.

(** The number of steps per epoch [get_config] arrives at. *)
Definition steps_for (fake : bool) (total_batch : Z) : Z :=
  if fake then 50 else np_round (inject_Z 1281167 / inject_Z total_batch).

(** The calls of the evaluation branch, in order. *)
Definition eval_calls (hostname : string) (args : Args) (m : Model) : list event :=
  [ logger_info "Running on {}" [FStr hostname];
    get_val_dataflow (arg_data args) 128 (fbresnet_augmentor false) None;
    ImageNetModel_init "NCHW";
    get_model_loader (arg_load args);
    eval_on_ILSVRC12 m (ModelLoader (arg_load args))
      (ValDataflow (arg_data args) 128 (fbresnet_augmentor false) None) ].

(** ** Concrete runs *)

(** Every call into the frameworks returns. *)
Definition never_raises : list event -> event -> bool := fun _ _ => false.

(** The defaults of the argument parser. *)
Definition default_args : Args :=
  {| arg_data := None;
     arg_logdir := "train_log/tmp";
     arg_load := None;
     arg_fake := false;
     arg_depth := 50;
     arg_eval := false;
     arg_validation := None;
     arg_batch := 32 |}.

Definition with_batch (b : Z) (args : Args) : Args :=
  {| arg_data := arg_data args;
     arg_logdir := arg_logdir args;
     arg_load := arg_load args;
     arg_fake := arg_fake args;
     arg_depth := arg_depth args;
     arg_eval := arg_eval args;
     arg_validation := arg_validation args;
     arg_batch := b |}.

Definition resnet50 (loss_scale : Q) : Model :=
  {| _loss_scale := loss_scale; num_blocks := [3; 4; 6; 3] |}.

(** Runs a closed call of [get_config] and puts its trace and configuration
    for the existential. *)
Ltac run_get_config :=
  match goal with
  | |- exists tr cfg, ?run = (tr, inr cfg) /\ _ =>
      let v := eval vm_compute in run in
      match v with
      | (?t, inr ?c) => exists t, c; split; [vm_compute; reflexivity |]
      end
  end.

(** The property C5 asks of a run: it ends in the script's assertion error
    and no model was constructed. *)
Definition fails_before_model_construction (r : list event * (exn + unit)) : Prop :=
  snd r = inl AssertionError /\ ~ In (ImageNetModel_init "NCHW") (fst r).

(** A model loader that rejects a missing path; every other call returns. *)
Definition loader_rejects_none : list event -> event -> bool :=
  fun _ e =>
    match e with
    | get_model_loader None => true
    | _ => false
    end.

Definition eval_args_no_load : Args :=
  {| arg_data := Some "/data/ILSVRC12";
     arg_logdir := "train_log/tmp";
     arg_load := None;
     arg_fake := false;
     arg_depth := 50;
     arg_eval := true;
     arg_validation := None;
     arg_batch := 32 |}.

(** ** Further observations *)

(** Every occurrence of [b] in a trace comes after an occurrence of [a]. *)
Definition precedes (a b : event) (tr : list event) : Prop :=
  forall pre post, tr = pre ++ b :: post -> In a pre.

(** The input source [get_config] builds. *)
Definition config_data (fake : bool) (batch : Z) : input_source :=
  if fake then
    StagingInput
      (QueueInput (FakeData [[batch; 224; 224; 3]; [batch]] 1000 false ["uint8"; "int32"]))
      None
  else
    StagingInput (ZMQInput ("ipc://@imagenet-train-b" +:+ str batch) 30 false) (Some 1).

(** The validation dataflow a worker asks for, and the inference runner it
    adds: none without [--validation], the whole validation set on rank 0
    with [master], the worker's own split with [distributed]. *)
Definition validation_calls (hvd_size hvd_rank : Z) (args : Args) : list event :=
  match arg_validation args with
  | Some master =>
      if hvd_rank =? 0
      then [get_val_dataflow (arg_data args) 64 (fbresnet_augmentor false) None]
      else []
  | Some distributed =>
      [get_val_dataflow (arg_data args) 64 (fbresnet_augmentor false)
                        (Some (hvd_size, hvd_rank))]
  | None => []
  end.

Definition validation_runner (hvd_size hvd_rank : Z) (args : Args) : list callback :=
  match arg_validation args with
  | Some master =>
      if hvd_rank =? 0
      then [InferenceRunner
              (QueueInput (ValDataflow (arg_data args) 64 (fbresnet_augmentor false) None))
              [ClassificationError "wrong-top1" "val-error-top1";
               ClassificationError "wrong-top5" "val-error-top5"] true]
      else []
  | Some distributed =>
      [InferenceRunner
         (QueueInput (ValDataflow (arg_data args) 64 (fbresnet_augmentor false)
                                  (Some (hvd_size, hvd_rank))))
         [HorovodClassificationError "wrong-top1" "val-error-top1";
          HorovodClassificationError "wrong-top5" "val-error-top5"] false]
  | None => []
  end.

(** The calls of [get_config], in order, when each of them returns. *)
Definition config_calls (hvd_size hvd_rank : Z) (args : Args) (fake : bool) : list event :=
  (if fake then []
   else [logger_info "#Tower: {}; Batch size per tower: {}"
                     [FInt hvd_size; FInt (arg_batch args)]]) ++
  [logger_info "Base LR: {}" [FFloat (BASE_LR (arg_batch args * hvd_size))]] ++
  validation_calls hvd_size hvd_rank args.

Definition is_val_dataflow_call (e : event) : bool :=
  match e with
  | get_val_dataflow _ _ _ _ => true
  | _ => false
  end.

Definition sum_list (l : list Z) : Z := fold_right Z.add 0 l.

Definition sum_Q (l : list Q) : Q := fold_right Qplus 0%Q l.

(** The configuration a training run launches with. *)
Definition training_config (hvd_size hvd_rank : Z) (args : Args) : TrainConfig :=
  {| model := {| _loss_scale := 1 / inject_Z hvd_size;
                 num_blocks := default [] (num_blocks_table !! arg_depth args) |};
     data := config_data (arg_fake args) (arg_batch args);
     callbacks := lr_callbacks (steps_for (arg_fake args) (arg_batch args * hvd_size))
                               (arg_batch args * hvd_size)
                  ++ validation_runner hvd_size hvd_rank args;
     steps_per_epoch := steps_for (arg_fake args) (arg_batch args * hvd_size);
     max_epoch := if arg_fake args then 35 else 90 |}.

(** The calls of the training branch, in order. *)
Definition training_calls (hvd_size hvd_rank : Z) (hostname : string) (args : Args)
  : list event :=
  [logger_info "Running on {}" [FStr hostname]; hvd_init] ++
  (if hvd_rank =? 0 then [logger_set_logger_dir (arg_logdir args) "d"] else []) ++
  [ImageNetModel_init "NCHW"] ++
  config_calls hvd_size hvd_rank args (arg_fake args) ++
  [launch_train_with_config (training_config hvd_size hvd_rank args)
                            (HorovodTrainer false)].

(** The model an evaluation run constructs. *)
Definition eval_model (args : Args) : Model :=
  {| _loss_scale := 1; num_blocks := default [] (num_blocks_table !! arg_depth args) |}.

(** * Properties *)

(** ** The monad *)

Lemma call_quiet raises e tr :
  raises tr e = false -> call raises e tr = (tr ++ [e], inr tt).
Proof. intros H. unfold call. now rewrite H. Qed.

Lemma call_trace raises e tr :
  fst (call raises e tr) = tr ++ [e].
Proof. unfold call. now destruct (raises tr e). Qed.

(** ** The model constructor *)

Lemma num_blocks_other (d : Z) :
  d <> 50 -> d <> 101 -> d <> 152 -> num_blocks_table !! d = None.
Proof.
  intros H50 H101 H152. unfold num_blocks_table.
  rewrite !lookup_insert_ne by congruence.
  apply lookup_singleton_ne. congruence.
Qed.

(** C10: [Model.__init__] maps depth 50 to [3, 4, 6, 3], depth 101 to
    [3, 4, 23, 3] and depth 152 to [3, 8, 36, 3], and raises a [KeyError] for
    every other depth (the constructor of the base class having returned). *)
Theorem Model_init_num_blocks raises (loss_scale : Q) (tr : list event) :
  raises tr (ImageNetModel_init "NCHW") = false ->
  Model_init raises 50 loss_scale tr =
    (tr ++ [ImageNetModel_init "NCHW"],
     inr {| _loss_scale := loss_scale; num_blocks := [3; 4; 6; 3] |}) /\
  Model_init raises 101 loss_scale tr =
    (tr ++ [ImageNetModel_init "NCHW"],
     inr {| _loss_scale := loss_scale; num_blocks := [3; 4; 23; 3] |}) /\
  Model_init raises 152 loss_scale tr =
    (tr ++ [ImageNetModel_init "NCHW"],
     inr {| _loss_scale := loss_scale; num_blocks := [3; 8; 36; 3] |}) /\
  forall depth, depth <> 50 -> depth <> 101 -> depth <> 152 ->
    Model_init raises depth loss_scale tr =
      (tr ++ [ImageNetModel_init "NCHW"], inl (KeyError depth)).
Proof.
  intros Hq. unfold Model_init, bind.
  rewrite (call_quiet _ _ _ Hq).
  repeat split; try reflexivity.
  intros d H50 H101 H152. now rewrite num_blocks_other.
Qed.

Lemma Model_init_num_blocks_witness :
  Model_init (fun _ _ => false) 101 1 [] =
    ([ImageNetModel_init "NCHW"], inr {| _loss_scale := 1; num_blocks := [3; 4; 23; 3] |}) /\
  Model_init (fun _ _ => false) 34 1 [] =
    ([ImageNetModel_init "NCHW"], inl (KeyError 34)).
Proof.
  destruct (Model_init_num_blocks (fun _ _ => false) 1 [] eq_refl)
    as (_ & H101 & _ & Hother).
  split; [exact H101 | apply Hother; discriminate].
Defined.

(** ** What [get_config] returns *)

Section GetConfig.

Variable raises : list event -> event -> bool.
Variables hvd_size hvd_rank : Z.
Variable args : Args.
Variable m : Model.
Variable fake : bool.

Hypothesis Hquiet : quiet raises.

Let total_batch := arg_batch args * hvd_size.

(** With a total batch other than zero (or with fake data) [get_config]
    returns; the configuration carries the model it was given, the
    learning-rate callbacks followed by at most one inference runner, and
    the base learning rate has been logged. *)
Lemma get_config_returns (tr : list event) :
  fake = true \/ total_batch <> 0 ->
  exists tr' cfg vcbs,
    get_config raises hvd_size hvd_rank args m fake tr = (tr', inr cfg) /\
    model cfg = m /\
    steps_per_epoch cfg = steps_for fake total_batch /\
    callbacks cfg = lr_callbacks (steps_for fake total_batch) total_batch ++ vcbs /\
    forallb is_inference_runner vcbs = true /\
    In (logger_info "Base LR: {}" [FFloat (BASE_LR total_batch)]) tr'.
Proof.
  intros Hok. unfold get_config, bind.
  assert (Hfirst : exists tr1 d,
    (if fake
     then ret (StagingInput (QueueInput
                 (FakeData [[arg_batch args; 224; 224; 3]; [arg_batch args]] 1000
                           false ["uint8"; "int32"])) None, 50)
     else bind (call raises (logger_info "#Tower: {}; Batch size per tower: {}"
                               [FInt hvd_size; FInt (arg_batch args)]))
               (fun _ => bind (true_div 1281167 (arg_batch args * hvd_size))
                 (fun q => ret (StagingInput
                    (ZMQInput ("ipc://@imagenet-train-b" +:+ str (arg_batch args)) 30 false)
                    (Some 1), np_round q)))) tr
    = (tr1, inr (d, steps_for fake total_batch))).
  { destruct fake.
    - now eexists _, _.
    - unfold bind. rewrite (call_quiet _ _ _ (Hquiet _ _)). unfold true_div.
      destruct (Z.eqb_spec (arg_batch args * hvd_size) 0) as [E | _].
      + destruct Hok as [? | Hne]; [discriminate | now elim Hne].
      + now eexists _, _. }
  destruct Hfirst as (tr1 & d & Hfirst). unfold bind in Hfirst. rewrite Hfirst.
  cbn [fst snd]. rewrite (call_quiet _ _ _ (Hquiet _ _)).
  fold total_batch.
  assert (Hlr :
    (if Qgtb (BASE_LR total_batch) 0.1
     then [ModelSaver 100; EstimatedTimeLeft;
           ScheduledHyperParamSetter "learning_rate"
             [(30, (BASE_LR total_batch * 1e-1)%Q); (60, (BASE_LR total_batch * 1e-2)%Q);
              (80, (BASE_LR total_batch * 1e-3)%Q)] None false] ++
          [ScheduledHyperParamSetter "learning_rate"
             [(0, 0.1%Q); (5 * steps_for fake total_batch, BASE_LR total_batch)]
             (Some "linear") true]
     else [ModelSaver 100; EstimatedTimeLeft;
           ScheduledHyperParamSetter "learning_rate"
             [(30, (BASE_LR total_batch * 1e-1)%Q); (60, (BASE_LR total_batch * 1e-2)%Q);
              (80, (BASE_LR total_batch * 1e-3)%Q)] None false])
    = lr_callbacks (steps_for fake total_batch) total_batch).
  { unfold lr_callbacks. destruct (Qgtb (BASE_LR total_batch) 0.1);
      [reflexivity | now rewrite app_nil_r]. }
  rewrite Hlr.
  assert (Hlog : forall rest,
    In (logger_info "Base LR: {}" [FFloat (BASE_LR total_batch)])
       ((tr1 ++ [logger_info "Base LR: {}" [FFloat (BASE_LR total_batch)]]) ++ rest)).
  { intros rest. rewrite !in_app_iff. left. right. now left. }
  destruct (arg_validation args) as [[ | ] | ].
  - (* distributed *)
    cbn. rewrite (call_quiet _ _ _ (Hquiet _ _)). cbn.
    eexists _, _, [_]. repeat split; try reflexivity. apply Hlog.
  - (* master *)
    destruct (hvd_rank =? 0).
    + cbn. rewrite (call_quiet _ _ _ (Hquiet _ _)). cbn.
      eexists _, _, [_]. repeat split; try reflexivity. apply Hlog.
    + cbn. eexists _, _, []. rewrite app_nil_r. repeat split; try reflexivity.
      rewrite <- (app_nil_r (tr1 ++ _)). apply Hlog.
  - cbn. eexists _, _, []. rewrite app_nil_r. repeat split; try reflexivity.
    rewrite <- (app_nil_r (tr1 ++ _)). apply Hlog.
Qed.

End GetConfig.

(** ** Rounding *)

Lemma np_round_half (q : Q) :
  (Qabs (inject_Z (np_round q) - q) <= 1 # 2)%Q.
Proof.
  unfold np_round.
  pose proof (Qfloor_le q) as Hlo.
  pose proof (Qlt_floor q) as Hhi.
  rewrite inject_Z_plus in Hhi. change (inject_Z 1) with 1%Q in Hhi.
  apply Qabs_Qle_condition.
  destruct (Qcompare_spec (q - inject_Z (Qfloor q)) (1 # 2)) as [E | L | G].
  - destruct (Z.even (Qfloor q));
      [| rewrite inject_Z_plus; change (inject_Z 1) with 1%Q]; split; lra.
  - split; lra.
  - rewrite inject_Z_plus. change (inject_Z 1) with 1%Q. split; lra.
Qed.

(** No integer is closer to [q] than [np_round q]. *)
Lemma np_round_nearest (q : Q) (z : Z) :
  (Qabs (inject_Z (np_round q) - q) <= Qabs (inject_Z z - q))%Q.
Proof.
  pose proof (np_round_half q) as Hh.
  apply Qabs_Qle_condition in Hh.
  destruct (Z.eq_dec z (np_round q)) as [-> | Hne]; [apply Qle_refl |].
  apply Qabs_case; intros Hs; apply Qabs_case; intros Hz.
  all: assert (Hd : z + 1 <= np_round q \/ np_round q + 1 <= z) by lia.
  all: destruct Hd as [Hd | Hd]; rewrite Zle_Qle in Hd;
       rewrite inject_Z_plus in Hd; change (inject_Z 1) with 1%Q in Hd; lra.
Qed.

Example np_round_5004_56 : np_round (inject_Z 1281167 / inject_Z 256) = 5005.
Proof. reflexivity. Qed.

Example np_round_tie_even : np_round (inject_Z 1281167 / inject_Z 2) = 640584.
Proof. reflexivity. Qed.

(** ** The base learning rate *)

Lemma BASE_LR_no_warmup (total_batch : Z) :
  total_batch < 512 -> Qgtb (BASE_LR total_batch) 0.1 = false.
Proof.
  intros Hlt. unfold Qgtb, BASE_LR.
  assert (Hn : total_batch / 256 <= 1).
  { apply Z.lt_succ_r. apply Z.div_lt_upper_bound; lia. }
  destruct (Qcompare_spec (0.1 * inject_Z (total_batch / 256)) 0.1) as [E | L | G];
    try reflexivity.
  rewrite Zle_Qle in Hn. change (inject_Z 1) with 1%Q in Hn. lra.
Qed.

Lemma BASE_LR_warmup (total_batch : Z) :
  512 <= total_batch -> Qgtb (BASE_LR total_batch) 0.1 = true.
Proof.
  intros Hge. unfold Qgtb, BASE_LR.
  assert (Hn : 2 <= total_batch / 256).
  { apply Z.div_le_lower_bound; lia. }
  rewrite Zle_Qle in Hn. change (inject_Z 2) with 2%Q in Hn.
  destruct (Qcompare_spec (0.1 * inject_Z (total_batch / 256)) 0.1) as [E | L | G];
    try reflexivity; lra.
Qed.

Lemma BASE_LR_one (total_batch : Z) :
  256 <= total_batch < 512 -> (BASE_LR total_batch == 0.1)%Q.
Proof.
  intros H. unfold BASE_LR.
  replace (total_batch / 256) with 1; [reflexivity |].
  apply Z.div_unique with (r := total_batch - 256); lia.
Qed.

(** On a multiple of 256 the floor division is exact. *)
Lemma BASE_LR_multiple (k : Z) :
  (BASE_LR (256 * k) == 0.1 * (inject_Z (256 * k) / 256))%Q.
Proof.
  unfold BASE_LR. rewrite Z.mul_comm, Z.div_mul by lia.
  rewrite inject_Z_mult. change (inject_Z 256) with 256%Q. field.
Qed.

Lemma filter_warmup_runners (l : list callback) :
  forallb is_inference_runner l = true -> List.filter is_warmup l = [].
Proof.
  induction l as [| cb l IH]; [reflexivity |]. cbn.
  destruct cb; cbn; try discriminate. exact IH.
Qed.

Lemma filter_decay_runners (l : list callback) :
  forallb is_inference_runner l = true -> List.filter is_decay l = [].
Proof.
  induction l as [| cb l IH]; [reflexivity |]. cbn.
  destruct cb; cbn; try discriminate. exact IH.
Qed.

Lemma never_raises_quiet : quiet never_raises.
Proof. intros tr e. reflexivity. Defined.

(** ** The learning-rate schedule *)

(** C1, as the code has it: with a total batch of at most 256 [get_config]
    adds no warmup schedule (no step-based setter is among the callbacks),
    and with a total batch of exactly 256 the base learning rate it logs and
    schedules is 0.1. *)
Theorem small_batch_no_warmup raises hvd_size hvd_rank args m fake :
  quiet raises ->
  fake = true \/ arg_batch args * hvd_size <> 0 ->
  arg_batch args * hvd_size <= 256 ->
  exists tr cfg,
    get_config raises hvd_size hvd_rank args m fake [] = (tr, inr cfg) /\
    List.filter is_warmup (callbacks cfg) = [] /\
    (arg_batch args * hvd_size = 256 ->
     exists base_lr,
       In (logger_info "Base LR: {}" [FFloat base_lr]) tr /\
       (base_lr == 0.1)%Q).
Proof.
  intros Hq Hok Hle.
  destruct (get_config_returns raises hvd_size hvd_rank args m fake Hq [] Hok)
    as (tr & cfg & vcbs & Hrun & _ & _ & Hcbs & Hv & Hlog).
  exists tr, cfg. split; [exact Hrun |]. split.
  - rewrite Hcbs, List.filter_app, (filter_warmup_runners _ Hv), app_nil_r.
    unfold lr_callbacks. rewrite BASE_LR_no_warmup by lia. reflexivity.
  - intros E. exists (BASE_LR (arg_batch args * hvd_size)). split; [exact Hlog |].
    apply BASE_LR_one. lia.
Qed.

Lemma small_batch_no_warmup_witness :
  exists tr cfg,
    get_config never_raises 8 0 default_args (resnet50 (1 # 8)) false [] = (tr, inr cfg) /\
    List.filter is_warmup (callbacks cfg) = [] /\
    (arg_batch default_args * 8 = 256 ->
     exists base_lr,
       In (logger_info "Base LR: {}" [FFloat base_lr]) tr /\
       (base_lr == 0.1)%Q).
Proof.
  apply (small_batch_no_warmup never_raises 8 0 default_args (resnet50 (1 # 8)) false).
  - exact never_raises_quiet.
  - right. vm_compute. discriminate.
  - vm_compute. discriminate.
Defined.

(** C1 as stated fails: with the default batch of 32 on one worker the total
    batch is 32, at most 256, and the base learning rate [get_config] logs is
    0, not 0.1. *)
Lemma small_batch_base_lr_not_0_1 :
  32 * 1 <= 256 /\
  exists tr cfg,
    get_config never_raises 1 0 default_args (resnet50 1) false [] = (tr, inr cfg) /\
    In (logger_info "Base LR: {}" [FFloat (BASE_LR (32 * 1))]) tr /\
    (BASE_LR (32 * 1) == 0)%Q /\
    ~ (BASE_LR (32 * 1) == 0.1)%Q.
Proof.
  split; [lia |]. run_get_config. split.
  - right. left. reflexivity.
  - split; [reflexivity | discriminate].
Qed.

(** C2 at a total batch that is no multiple of 256: 48 per worker on 8
    workers is 384, more than 256, yet the base learning rate is 0.1 and not
    0.1 * 384 / 256 = 0.15, and no warmup schedule is among the callbacks. *)
Theorem total_batch_384_no_warmup :
  256 < 48 * 8 /\
  exists tr cfg,
    get_config never_raises 8 0 (with_batch 48 default_args) (resnet50 (1 # 8)) false []
      = (tr, inr cfg) /\
    In (logger_info "Base LR: {}" [FFloat (BASE_LR (48 * 8))]) tr /\
    (BASE_LR (48 * 8) == 0.1)%Q /\
    ~ (BASE_LR (48 * 8) == 0.1 * (inject_Z (48 * 8) / 256))%Q /\
    List.filter is_warmup (callbacks cfg) = [].
Proof.
  split; [lia |]. run_get_config. split.
  - right. left. reflexivity.
  - split; [reflexivity |]. split; [discriminate | reflexivity].
Qed.

(** From a total batch of 512 on, the warmup is there: a step-based linear
    schedule from 0.1 at step 0 to the base learning rate at step
    [5 * steps_per_epoch]. *)
Lemma large_batch_warmup raises hvd_size hvd_rank args m fake :
  quiet raises ->
  512 <= arg_batch args * hvd_size ->
  exists tr cfg,
    get_config raises hvd_size hvd_rank args m fake [] = (tr, inr cfg) /\
    List.filter is_warmup (callbacks cfg) =
      [ ScheduledHyperParamSetter "learning_rate"
          [(0, 0.1%Q); (5 * steps_per_epoch cfg, BASE_LR (arg_batch args * hvd_size))]
          (Some "linear") true ].
Proof.
  intros Hq Hge.
  destruct (get_config_returns raises hvd_size hvd_rank args m fake Hq [])
    as (tr & cfg & vcbs & Hrun & _ & Hsteps & Hcbs & Hv & _); [right; lia |].
  exists tr, cfg. split; [exact Hrun |].
  rewrite Hcbs, List.filter_app, (filter_warmup_runners _ Hv), app_nil_r, Hsteps.
  unfold lr_callbacks. rewrite BASE_LR_warmup by lia. reflexivity.
Qed.

(** C3: whatever the base learning rate, the epoch-based setter of
    [get_config] carries exactly the points (30, base_lr * 0.1),
    (60, base_lr * 0.01) and (80, base_lr * 0.001), so that these are the
    values scheduled at epochs 30, 60 and 80. *)
Theorem decay_schedule raises hvd_size hvd_rank args m fake :
  quiet raises ->
  fake = true \/ arg_batch args * hvd_size <> 0 ->
  exists tr cfg base_lr,
    get_config raises hvd_size hvd_rank args m fake [] = (tr, inr cfg) /\
    In (logger_info "Base LR: {}" [FFloat base_lr]) tr /\
    List.filter is_decay (callbacks cfg) =
      [ ScheduledHyperParamSetter "learning_rate"
          [(30, (base_lr * 0.1)%Q); (60, (base_lr * 0.01)%Q); (80, (base_lr * 0.001)%Q)]
          None false ] /\
    let schedule := concat (map schedule_of (List.filter is_decay (callbacks cfg))) in
    schedule_at 30 schedule = Some (base_lr * 0.1)%Q /\
    schedule_at 60 schedule = Some (base_lr * 0.01)%Q /\
    schedule_at 80 schedule = Some (base_lr * 0.001)%Q /\
    forall e, e <> 30 -> e <> 60 -> e <> 80 -> schedule_at e schedule = None.
Proof.
  intros Hq Hok.
  destruct (get_config_returns raises hvd_size hvd_rank args m fake Hq [] Hok)
    as (tr & cfg & vcbs & Hrun & _ & _ & Hcbs & Hv & Hlog).
  exists tr, cfg, (BASE_LR (arg_batch args * hvd_size)).
  split; [exact Hrun |]. split; [exact Hlog |].
  assert (Hd : List.filter is_decay (callbacks cfg) =
      [ ScheduledHyperParamSetter "learning_rate"
          [(30, (BASE_LR (arg_batch args * hvd_size) * 0.1)%Q);
           (60, (BASE_LR (arg_batch args * hvd_size) * 0.01)%Q);
           (80, (BASE_LR (arg_batch args * hvd_size) * 0.001)%Q)] None false ]).
  { rewrite Hcbs, List.filter_app, (filter_decay_runners _ Hv), app_nil_r.
    unfold lr_callbacks.
    destruct (Qgtb (BASE_LR (arg_batch args * hvd_size)) 0.1); reflexivity. }
  split; [exact Hd |]. rewrite Hd. cbn [map schedule_of concat app schedule_at].
  repeat split.
  intros e H30 H60 H80.
  destruct (Z.eqb_spec 30 e); [congruence |].
  destruct (Z.eqb_spec 60 e); [congruence |].
  destruct (Z.eqb_spec 80 e); [congruence |]. reflexivity.
Qed.

Lemma decay_schedule_witness :
  exists tr cfg base_lr,
    get_config never_raises 16 3 (with_batch 64 default_args) (resnet50 (1 # 16)) false []
      = (tr, inr cfg) /\
    In (logger_info "Base LR: {}" [FFloat base_lr]) tr /\
    List.filter is_decay (callbacks cfg) =
      [ ScheduledHyperParamSetter "learning_rate"
          [(30, (base_lr * 0.1)%Q); (60, (base_lr * 0.01)%Q); (80, (base_lr * 0.001)%Q)]
          None false ] /\
    let schedule := concat (map schedule_of (List.filter is_decay (callbacks cfg))) in
    schedule_at 30 schedule = Some (base_lr * 0.1)%Q /\
    schedule_at 60 schedule = Some (base_lr * 0.01)%Q /\
    schedule_at 80 schedule = Some (base_lr * 0.001)%Q /\
    forall e, e <> 30 -> e <> 60 -> e <> 80 -> schedule_at e schedule = None.
Proof.
  apply (decay_schedule never_raises 16 3 (with_batch 64 default_args)
           (resnet50 (1 # 16)) false).
  - exact never_raises_quiet.
  - right. vm_compute. discriminate.
Defined.

(** C7: without fake data and with a positive total batch, [steps_per_epoch]
    is 1281167 divided by the total batch and rounded to the nearest integer:
    it is [np.round] of the quotient, and no integer is closer to the
    quotient. *)
Theorem steps_per_epoch_rounds raises hvd_size hvd_rank args m :
  quiet raises ->
  0 < arg_batch args * hvd_size ->
  exists tr cfg,
    get_config raises hvd_size hvd_rank args m false [] = (tr, inr cfg) /\
    let quotient := (inject_Z 1281167 / inject_Z (arg_batch args * hvd_size))%Q in
    steps_per_epoch cfg = np_round quotient /\
    (Qabs (inject_Z (steps_per_epoch cfg) - quotient) <= 1 # 2)%Q /\
    forall z : Z,
      (Qabs (inject_Z (steps_per_epoch cfg) - quotient) <= Qabs (inject_Z z - quotient))%Q.
Proof.
  intros Hq Hpos.
  destruct (get_config_returns raises hvd_size hvd_rank args m false Hq [])
    as (tr & cfg & vcbs & Hrun & _ & Hsteps & _); [right; lia |].
  exists tr, cfg. split; [exact Hrun |]. cbn zeta. rewrite Hsteps. unfold steps_for.
  split; [reflexivity |]. split; [apply np_round_half | apply np_round_nearest].
Qed.

Lemma steps_per_epoch_rounds_witness :
  exists tr cfg,
    get_config never_raises 8 0 default_args (resnet50 (1 # 8)) false [] = (tr, inr cfg) /\
    let quotient := (inject_Z 1281167 / inject_Z (arg_batch default_args * 8))%Q in
    steps_per_epoch cfg = np_round quotient /\
    (Qabs (inject_Z (steps_per_epoch cfg) - quotient) <= 1 # 2)%Q /\
    forall z : Z,
      (Qabs (inject_Z (steps_per_epoch cfg) - quotient) <= Qabs (inject_Z z - quotient))%Q.
Proof.
  apply (steps_per_epoch_rounds never_raises 8 0 default_args (resnet50 (1 # 8))).
  - exact never_raises_quiet.
  - vm_compute. reflexivity.
Defined.

(** ** Cross-worker aggregation *)

Lemma round_to_bits_small (p z : Z) :
  Z.abs z < 2 ^ p -> round_to_bits p z = z.
Proof.
  intros H. unfold round_to_bits. apply Z.ltb_lt in H. now rewrite H.
Qed.

Lemma f32_round_exact (z : Z) :
  0 <= z <= 2 ^ 24 -> f32_round z = F32 z.
Proof.
  change (2 ^ 24) with 16777216. intros Hz.
  destruct (Z.eq_dec z 16777216) as [-> | Hne]; [reflexivity |].
  unfold f32_round. rewrite round_to_bits_small by (change (2 ^ 24) with 16777216; lia).
  destruct (Z.leb_spec (2 ^ 128) (Z.abs z)) as [Hbig | _]; [| reflexivity].
  change (2 ^ 128) with 340282366920938463463374607431768211456 in Hbig. lia.
Qed.

Lemma to_float32_exact (z : Z) :
  0 <= z <= 2 ^ 24 -> to_float32 z = Some (F32 z).
Proof.
  intros Hz. pose proof Hz as Hz'. change (2 ^ 24) with 16777216 in Hz'.
  unfold to_float32.
  rewrite round_to_bits_small by (change (2 ^ 53) with 9007199254740992; lia).
  destruct (Z.leb_spec (2 ^ 1024) (Z.abs z)) as [Hbig | _].
  - assert (Hpow : 2 ^ 24 < 2 ^ 1024) by (apply Z.pow_lt_mono_r; lia).
    change (2 ^ 24) with 16777216 in Hpow. lia.
  - now rewrite f32_round_exact.
Qed.

(** Folding the feeds of further workers into an accumulator adds up the
    totals and the counts, component by component, as long as float32 holds
    the sums as they are. *)
Lemma fold_feeds (rest : list RatioCounter) (t c : Z) :
  Forall (fun s => 0 <= total s /\ 0 <= count s) rest ->
  0 <= t -> 0 <= c ->
  t + sum_total rest <= 2 ^ 24 ->
  c + sum_count rest <= 2 ^ 24 ->
  exists fed,
    feeds rest = Some fed /\
    fold_left tensor_add fed [F32 t; F32 c] =
      [F32 (t + sum_total rest); F32 (c + sum_count rest)].
Proof.
  unfold sum_total, sum_count. intros Hall. revert t c.
  induction Hall as [| s rest [Hs1 Hs2] Hall IH]; intros t c Ht Hc Hst Hsc;
    cbn [map fold_right] in *.
  - exists []. split; [reflexivity |]. cbn. now rewrite !Z.add_0_r.
  - assert (Hrest : 0 <= fold_right Z.add 0 (map total rest) /\
                    0 <= fold_right Z.add 0 (map count rest)).
    { clear - Hall. induction Hall as [| x l [H1 H2] _ [IH1 IH2]]; cbn; lia. }
    destruct (IH (t + total s) (c + count s)) as (fed & Hfed & Hfold); try lia.
    exists ([F32 (total s); F32 (count s)] :: fed). split.
    + cbn [feeds]. unfold feed_dict.
      rewrite !to_float32_exact by lia. now rewrite Hfed.
    + cbn [fold_left tensor_add f32_add].
      rewrite !f32_round_exact by lia. rewrite Hfold. f_equal; [| f_equal]; f_equal; lia.
Qed.

(** Within the range float32 holds, and with some example seen, the
    aggregator reports the sum of the counts over the sum of the totals. *)
Lemma after_inference_ratio (err_stats : list RatioCounter) :
  float32_exact err_stats ->
  0 < sum_total err_stats ->
  _after_inference err_stats =
    Some (inject_Z (sum_count err_stats) * 1 / inject_Z (sum_total err_stats))%Q.
Proof.
  intros (Hall & Ht & Hc) Hpos.
  destruct err_stats as [| s rest]; [unfold sum_total in Hpos; cbn in Hpos; lia |].
  inversion Hall as [| ? ? [Hs1 Hs2] Hrest]; subst.
  unfold sum_total, sum_count in *. cbn [map fold_right] in *.
  destruct (fold_feeds rest (total s) (count s) Hrest Hs1 Hs2 Ht Hc)
    as (fed & Hfed & Hfold).
  assert (Hnn : 0 <= fold_right Z.add 0 (map total rest) /\
                0 <= fold_right Z.add 0 (map count rest)).
  { clear - Hrest. induction Hrest as [| x l [H1 H2] _ [IH1 IH2]]; cbn; lia. }
  unfold _after_inference. cbn [feeds]. unfold feed_dict.
  rewrite !to_float32_exact by lia. rewrite Hfed. cbn [allreduce_sum].
  unfold sum_total, sum_count in Hfold. rewrite Hfold. cbn [np_true_divide].
  destruct (Z.eqb_spec (total s + fold_right Z.add 0 (map total rest)) 0); [lia |].
  reflexivity.
Qed.

(** C4 as stated fails: one worker with one wrong example of 16777217
    reports 1/16777216, not 1/16777217, because the float32 placeholder
    holds 16777217 as 16777216. *)
Lemma aggregated_error_rounds_float32 :
  0 < sum_total [ {| total := 16777217; count := 1 |} ] /\
  exists rate,
    _after_inference [ {| total := 16777217; count := 1 |} ] = Some rate /\
    (rate == 1 # 16777216)%Q /\
    ~ (rate == inject_Z (sum_count [ {| total := 16777217; count := 1 |} ])
               / inject_Z (sum_total [ {| total := 16777217; count := 1 |} ]))%Q.
Proof.
  split; [reflexivity |]. eexists. split; [vm_compute; reflexivity |].
  split; [reflexivity | discriminate].
Qed.

(** C4, as the code has it: for workers whose totals and counts are not
    negative and add up to at most 2^24 each (what the float32 placeholder
    and the float32 sum hold as they are), with a positive sum of the
    totals, the aggregator returns the sum of the wrong counts divided by
    the sum of the totals; and this is in general not the mean of the local
    ratios: two workers with one wrong of one and none wrong of three
    aggregate to 1/4, while their ratios average to 1/2. *)
Theorem aggregated_error_is_ratio_of_sums :
  (forall err_stats : list RatioCounter,
     float32_exact err_stats ->
     0 < sum_total err_stats ->
     exists rate,
       _after_inference err_stats = Some rate /\
       (rate == inject_Z (sum_count err_stats) / inject_Z (sum_total err_stats))%Q) /\
  (exists err_stats rate,
     float32_exact err_stats /\
     0 < sum_total err_stats /\
     _after_inference err_stats = Some rate /\
     ~ (rate == mean_of_local_ratios err_stats)%Q).
Proof.
  split.
  - intros err_stats Hexact Hpos.
    rewrite (after_inference_ratio err_stats Hexact Hpos).
    eexists. split; [reflexivity |]. now rewrite Qmult_1_r.
  - exists [ {| total := 1; count := 1 |}; {| total := 3; count := 0 |} ].
    eexists. split; [| split; [reflexivity | split; [vm_compute; reflexivity | discriminate]]].
    split; [| split; discriminate].
    repeat constructor; discriminate.
Qed.

Lemma aggregated_error_witness :
  exists rate,
    _after_inference [ {| total := 25000; count := 6100 |};
                       {| total := 25000; count := 5900 |} ] = Some rate /\
    (rate == 12000 # 50000)%Q.
Proof.
  destruct (proj1 aggregated_error_is_ratio_of_sums
              [ {| total := 25000; count := 6100 |};
                {| total := 25000; count := 5900 |} ]) as (rate & Hrun & Hrate).
  - split; [| split; discriminate]. repeat constructor; discriminate.
  - reflexivity.
  - exists rate. split; [exact Hrun |]. rewrite Hrate. reflexivity.
Defined.

(** ** The main program *)

(** C6: without [--eval] and with [--load] set, the run ends in a failure
    after the single call that logs the host name: Horovod is not
    initialised, no model is constructed and no configuration is built; the
    failure is the [AssertionError] of the script (the logging call having
    returned). *)
Theorem load_while_training_asserts raises hvd_size hvd_rank hostname args path :
  arg_eval args = false ->
  arg_load args = Some path ->
  exists e,
    main raises hvd_size hvd_rank hostname args [] =
      ([logger_info "Running on {}" [FStr hostname]], inl e) /\
    (raises [] (logger_info "Running on {}" [FStr hostname]) = false ->
     e = AssertionError) /\
    ~ In hvd_init (fst (main raises hvd_size hvd_rank hostname args [])) /\
    ~ In (ImageNetModel_init "NCHW") (fst (main raises hvd_size hvd_rank hostname args [])).
Proof.
  intros Heval Hload. unfold main, bind, call. rewrite Heval, Hload. cbn.
  destruct (raises [] (logger_info "Running on {}" [FStr hostname])); cbn.
  - eexists. split; [reflexivity |]. split; [discriminate |].
    split; intros [H | []]; discriminate.
  - exists AssertionError. split; [reflexivity |]. split; [reflexivity |].
    split; intros [H | []]; discriminate.
Qed.

Lemma load_while_training_asserts_witness :
  exists e,
    main never_raises 8 0 "node0"
         {| arg_data := Some "/data/ILSVRC12"; arg_logdir := "train_log/tmp";
            arg_load := Some "model.npz"; arg_fake := false; arg_depth := 50;
            arg_eval := false; arg_validation := None; arg_batch := 32 |} [] =
      ([logger_info "Running on {}" [FStr "node0"]], inl e) /\
    e = AssertionError.
Proof.
  destruct (load_while_training_asserts never_raises 8 0 "node0"
              {| arg_data := Some "/data/ILSVRC12"; arg_logdir := "train_log/tmp";
                 arg_load := Some "model.npz"; arg_fake := false; arg_depth := 50;
                 arg_eval := false; arg_validation := None; arg_batch := 32 |}
              "model.npz" eq_refl eq_refl) as (e & Hrun & Hassert & _).
  exists e. split; [exact Hrun | apply Hassert; reflexivity].
Defined.

Lemma In_initial_part {A} (x : A) (n : nat) (l : list A) :
  In x (firstn n l) -> In x l.
Proof.
  intros H. rewrite <- (firstn_skipn n l). apply in_or_app. now left.
Qed.

(** With [--eval] the trace is an initial part of [eval_calls], whatever
    raises, and the run never ends in the script's own [AssertionError]. *)
Lemma main_eval_trace raises hvd_size hvd_rank hostname args :
  arg_eval args = true ->
  exists n m,
    fst (main raises hvd_size hvd_rank hostname args []) =
      firstn n (eval_calls hostname args m) /\
    snd (main raises hvd_size hvd_rank hostname args []) <> inl AssertionError.
Proof.
  intros Heval. unfold main, Model_init, bind, call. rewrite Heval. cbn.
  destruct (raises [] _); cbn.
  { exists 1%nat, (resnet50 1). split; [reflexivity | discriminate]. }
  destruct (raises [_] _); cbn.
  { exists 2%nat, (resnet50 1). split; [reflexivity | discriminate]. }
  destruct (raises [_; _] _); cbn.
  { exists 3%nat, (resnet50 1). split; [reflexivity | discriminate]. }
  destruct (num_blocks_table !! arg_depth args) as [blocks |]; cbn.
  2: { exists 3%nat, (resnet50 1). split; [reflexivity | discriminate]. }
  destruct (raises [_; _; _] _); cbn.
  { exists 4%nat, (resnet50 1). split; [reflexivity | discriminate]. }
  destruct (raises [_; _; _; _] _); cbn.
  - exists 5%nat, {| _loss_scale := 1; num_blocks := blocks |}.
    split; [reflexivity | discriminate].
  - exists 5%nat, {| _loss_scale := 1; num_blocks := blocks |}.
    split; [reflexivity | discriminate].
Qed.

(** C9: with [--eval] the validation dataflow is requested with batch size
    128: it is the call that follows the log line, every request for a
    validation dataflow in the run has batch size 128, and the run is the
    same whatever [--batch] is. *)
Theorem eval_batch_is_128 raises hvd_size hvd_rank hostname args :
  arg_eval args = true ->
  (raises [] (logger_info "Running on {}" [FStr hostname]) = false ->
   exists rest,
     fst (main raises hvd_size hvd_rank hostname args []) =
       logger_info "Running on {}" [FStr hostname]
       :: get_val_dataflow (arg_data args) 128 (fbresnet_augmentor false) None
       :: rest) /\
  (forall datadir b augs splits,
     In (get_val_dataflow datadir b augs splits)
        (fst (main raises hvd_size hvd_rank hostname args [])) ->
     b = 128) /\
  (forall b,
     main raises hvd_size hvd_rank hostname (with_batch b args) [] =
     main raises hvd_size hvd_rank hostname args []).
Proof.
  intros Heval. split; [| split].
  - intros Hlog. unfold main, Model_init, bind, call. rewrite Heval, Hlog. cbn.
    destruct (raises [_] _); cbn; [now eexists |].
    destruct (raises [_; _] _); cbn; [now eexists |].
    destruct (num_blocks_table !! arg_depth args); cbn; [| now eexists].
    destruct (raises [_; _; _] _); cbn; [now eexists |].
    destruct (raises [_; _; _; _] _); cbn; now eexists.
  - intros datadir b augs splits Hin.
    destruct (main_eval_trace raises hvd_size hvd_rank hostname args Heval)
      as (n & m & Htr & _).
    rewrite Htr in Hin. apply In_initial_part in Hin.
    unfold eval_calls in Hin. cbn in Hin.
    destruct Hin as [H | [H | [H | [H | [H | []]]]]]; try discriminate.
    now inversion H.
  - intros b. unfold main. cbn. rewrite Heval. reflexivity.
Qed.

Lemma eval_batch_is_128_witness :
  exists rest,
    fst (main never_raises 1 0 "node0"
           {| arg_data := Some "/data/ILSVRC12"; arg_logdir := "train_log/tmp";
              arg_load := Some "model.npz"; arg_fake := false; arg_depth := 50;
              arg_eval := true; arg_validation := None; arg_batch := 32 |} []) =
      logger_info "Running on {}" [FStr "node0"]
      :: get_val_dataflow (Some "/data/ILSVRC12") 128 (fbresnet_augmentor false) None
      :: rest.
Proof.
  apply (proj1 (eval_batch_is_128 never_raises 1 0 "node0"
           {| arg_data := Some "/data/ILSVRC12"; arg_logdir := "train_log/tmp";
              arg_load := Some "model.npz"; arg_fake := false; arg_depth := 50;
              arg_eval := true; arg_validation := None; arg_batch := 32 |} eq_refl)).
  reflexivity.
Defined.

(** C5 as stated fails: with [--eval] and no [--load] the run builds the
    validation dataflow and constructs the model, and fails only in the
    model loader; there is no assertion on this path. *)
Lemma eval_without_load_constructs_model :
  main loader_rejects_none 1 0 "node0" eval_args_no_load [] =
    ([ logger_info "Running on {}" [FStr "node0"];
       get_val_dataflow (Some "/data/ILSVRC12") 128 (fbresnet_augmentor false) None;
       ImageNetModel_init "NCHW";
       get_model_loader None ],
     inl (ExternalError (get_model_loader None))) /\
  ~ fails_before_model_construction
      (main loader_rejects_none 1 0 "node0" eval_args_no_load []).
Proof.
  split; [reflexivity |].
  intros [Hassert _]. vm_compute in Hassert. discriminate.
Qed.

(** C5, as the code has it: with [--eval] and no [--load] the run never ends
    in the script's own assertion error; when the depth is one of 50, 101
    and 152 and the calls before the model loader return, the validation
    dataflow is built and the model is constructed before the loader is
    called with the missing path, and if the loader raises, the run ends
    there with the loader's error. *)
Theorem eval_without_load_fails_in_loader raises hvd_size hvd_rank hostname args :
  arg_eval args = true ->
  arg_load args = None ->
  snd (main raises hvd_size hvd_rank hostname args []) <> inl AssertionError /\
  (is_Some (num_blocks_table !! arg_depth args) ->
   (forall tr e, e <> get_model_loader None -> raises tr e = false) ->
   exists rest out,
     main raises hvd_size hvd_rank hostname args [] =
       ([ logger_info "Running on {}" [FStr hostname];
          get_val_dataflow (arg_data args) 128 (fbresnet_augmentor false) None;
          ImageNetModel_init "NCHW";
          get_model_loader None ] ++ rest, out) /\
     (raises [ logger_info "Running on {}" [FStr hostname];
               get_val_dataflow (arg_data args) 128 (fbresnet_augmentor false) None;
               ImageNetModel_init "NCHW" ] (get_model_loader None) = true ->
      rest = [] /\ out = inl (ExternalError (get_model_loader None)))).
Proof.
  intros Heval Hload. split.
  - destruct (main_eval_trace raises hvd_size hvd_rank hostname args Heval)
      as (n & m & _ & Hne). exact Hne.
  - intros [blocks Hdepth] Hother.
    unfold main, Model_init, bind, call. rewrite Heval, Hload, Hdepth.
    rewrite !Hother by discriminate. cbn.
    destruct (raises _ (get_model_loader None)); cbn.
    + exists [], (inl (ExternalError (get_model_loader None))).
      split; [reflexivity |]. intros _. split; reflexivity.
    + rewrite Hother by discriminate.
      eexists [_], _. split; [reflexivity |]. discriminate.
Qed.

Lemma eval_without_load_fails_in_loader_witness :
  exists rest out,
    main loader_rejects_none 1 0 "node0" eval_args_no_load [] =
      ([ logger_info "Running on {}" [FStr "node0"];
         get_val_dataflow (Some "/data/ILSVRC12") 128 (fbresnet_augmentor false) None;
         ImageNetModel_init "NCHW";
         get_model_loader None ] ++ rest, out) /\
    rest = [] /\ out = inl (ExternalError (get_model_loader None)).
Proof.
  destruct (proj2 (eval_without_load_fails_in_loader loader_rejects_none 1 0 "node0"
                     eval_args_no_load eq_refl eq_refl)) as (rest & out & Hrun & Hfail).
  - exists [3; 4; 6; 3]. reflexivity.
  - intros tr e He. destruct e as [| | | [f |] | | | |]; try reflexivity. now elim He.
  - exists rest, out. split; [exact Hrun |]. apply Hfail. reflexivity.
Defined.

(** ** The loss scale *)

(** C8: [build_graph] returns the cost of the base class multiplied by the
    loss scale when the loss scale is not 1.0 and returns it as it is when
    the loss scale is 1.0; and a training run on [hvd_size] workers launches
    the trainer with a model whose loss scale is [1 / hvd_size], so that its
    loss is the base cost times [1 / hvd_size], and is the base cost itself
    on one worker. *)
Theorem training_loss_scale raises hvd_size hvd_rank hostname args :
  quiet raises ->
  arg_eval args = false ->
  arg_load args = None ->
  0 < hvd_size ->
  is_Some (num_blocks_table !! arg_depth args) ->
  arg_fake args = true \/ arg_batch args * hvd_size <> 0 ->
  (forall (self : Model) inputs,
     (~ (_loss_scale self == 1)%Q ->
      build_graph self inputs = Mul (ImageNetModel_build_graph inputs) (_loss_scale self)) /\
     ((_loss_scale self == 1)%Q ->
      build_graph self inputs = ImageNetModel_build_graph inputs)) /\
  exists tr cfg,
    main raises hvd_size hvd_rank hostname args [] =
      (tr ++ [launch_train_with_config cfg (HorovodTrainer false)], inr tt) /\
    (_loss_scale (model cfg) == 1 / inject_Z hvd_size)%Q /\
    forall inputs base,
      (tensor_value base (build_graph (model cfg) inputs)
       == base inputs * (1 / inject_Z hvd_size))%Q /\
      (hvd_size <> 1 ->
       build_graph (model cfg) inputs =
         Mul (ImageNetModel_build_graph inputs) (_loss_scale (model cfg))) /\
      (hvd_size = 1 ->
       build_graph (model cfg) inputs = ImageNetModel_build_graph inputs).
Proof.
  intros Hq Heval Hload Hsize [blocks Hdepth] Hok.
  assert (Hbuild : forall (self : Model) inputs,
     (~ (_loss_scale self == 1)%Q ->
      build_graph self inputs = Mul (ImageNetModel_build_graph inputs) (_loss_scale self)) /\
     ((_loss_scale self == 1)%Q ->
      build_graph self inputs = ImageNetModel_build_graph inputs)).
  { intros self inputs. unfold build_graph, Qneb.
    destruct (Qeq_bool (_loss_scale self) 1) eqn:E; cbn.
    - apply Qeq_bool_iff in E. split; [intros H; contradiction | reflexivity].
    - apply Qeq_bool_neq in E. split; [reflexivity | intros H; contradiction]. }
  split; [exact Hbuild |].
  unfold main, Model_init, bind, float_div. rewrite Heval, Hload. cbn [assert ret].
  rewrite !(call_quiet _ _ _ (Hq _ _)).
  assert (Hrank : exists tr1,
    (if hvd_rank =? 0 then call raises (logger_set_logger_dir (arg_logdir args) "d")
     else ret tt)
      (([] ++ [logger_info "Running on {}" [FStr hostname]]) ++ [hvd_init])
    = (tr1, inr tt)).
  { destruct (hvd_rank =? 0).
    - rewrite (call_quiet _ _ _ (Hq _ _)). now eexists.
    - now eexists. }
  destruct Hrank as (tr1 & ->).
  destruct (Z.eqb_spec hvd_size 0) as [E | _]; [lia |]. cbn [ret].
  rewrite (call_quiet _ _ _ (Hq _ _)), Hdepth.
  destruct (get_config_returns raises hvd_size hvd_rank args
              {| _loss_scale := 1 / inject_Z hvd_size; num_blocks := blocks |}
              (arg_fake args) Hq (tr1 ++ [ImageNetModel_init "NCHW"]) Hok)
    as (tr2 & cfg & vcbs & Hrun & Hmodel & _).
  unfold ret at 1. cbv iota beta.
  rewrite Hrun, (call_quiet _ _ _ (Hq _ _)).
  exists tr2, cfg. split; [reflexivity |].
  rewrite Hmodel. cbn [_loss_scale]. split; [reflexivity |].
  intros inputs base.
  assert (Hone : (1 / inject_Z hvd_size == 1)%Q <-> hvd_size = 1).
  { split.
    - intros E. unfold Qeq, Qdiv, Qinv, Qmult, inject_Z in E.
      destruct hvd_size as [| p | p]; cbn in E; lia.
    - intros ->. reflexivity. }
  destruct (Hbuild {| _loss_scale := 1 / inject_Z hvd_size; num_blocks := blocks |} inputs)
    as [Hscaled Hsame].
  cbn [_loss_scale] in Hscaled, Hsame.
  split; [| split].
  - destruct (Z.eq_dec hvd_size 1) as [E1 | N1].
    + rewrite Hsame by now apply Hone. cbn [tensor_value]. subst hvd_size. field.
    + rewrite Hscaled by (intros E; now apply Hone in E). reflexivity.
  - intros N1. apply Hscaled. intros E. now apply Hone in E.
  - intros E1. apply Hsame. now apply Hone.
Qed.

Lemma training_loss_scale_witness :
  exists tr cfg,
    main never_raises 8 0 "node0" default_args [] =
      (tr ++ [launch_train_with_config cfg (HorovodTrainer false)], inr tt) /\
    (_loss_scale (model cfg) == 1 # 8)%Q /\
    build_graph (model cfg) ["input"; "label"] =
      Mul (ImageNetModel_build_graph ["input"; "label"]) (_loss_scale (model cfg)).
Proof.
  assert (Hdepth : is_Some (num_blocks_table !! arg_depth default_args))
    by (exists [3; 4; 6; 3]; reflexivity).
  assert (Hok : arg_fake default_args = true \/ arg_batch default_args * 8 <> 0)
    by (right; vm_compute; discriminate).
  destruct (proj2 (training_loss_scale never_raises 8 0 "node0" default_args
                     never_raises_quiet eq_refl eq_refl eq_refl Hdepth Hok))
    as (tr & cfg & Hrun & Hscale & Hgraph).
  exists tr, cfg. split; [exact Hrun |]. split; [exact Hscale |].
  apply (Hgraph ["input"; "label"] (fun _ => 1%Q)). discriminate.
Defined.

(** * Further properties *)

(** ** The run of [get_config] *)

(** When no call raises and the total batch is not zero (or the data is
    fake), [get_config] makes the calls of [config_calls] and returns the
    configuration spelled out here. *)
Lemma get_config_run raises hvd_size hvd_rank args m fake tr :
  quiet raises ->
  fake = true \/ arg_batch args * hvd_size <> 0 ->
  get_config raises hvd_size hvd_rank args m fake tr =
    (tr ++ config_calls hvd_size hvd_rank args fake,
     inr {| model := m;
            data := config_data fake (arg_batch args);
            callbacks := lr_callbacks (steps_for fake (arg_batch args * hvd_size))
                                      (arg_batch args * hvd_size)
                         ++ validation_runner hvd_size hvd_rank args;
            steps_per_epoch := steps_for fake (arg_batch args * hvd_size);
            max_epoch := if arg_fake args then 35 else 90 |}).
Proof.
  intros Hq Hok. unfold get_config, config_calls, validation_calls, validation_runner,
    lr_callbacks, config_data, steps_for, bind, true_div, ret.
  destruct fake.
  - rewrite (call_quiet _ _ _ (Hq _ _)). cbn [fst snd app].
    destruct (Qgtb (BASE_LR (arg_batch args * hvd_size)) 0.1);
      destruct (arg_validation args) as [[ | ] | ]; cbn;
      try destruct (hvd_rank =? 0); cbn;
      rewrite ?(call_quiet _ _ _ (Hq _ _)), ?app_nil_r, <- ?app_assoc; reflexivity.
  - rewrite (call_quiet _ _ _ (Hq _ _)).
    destruct (Z.eqb_spec (arg_batch args * hvd_size) 0) as [E | _].
    { destruct Hok as [? | Hne]; [discriminate | now elim Hne]. }
    rewrite (call_quiet _ _ _ (Hq _ _)). cbn [fst snd app].
    destruct (Qgtb (BASE_LR (arg_batch args * hvd_size)) 0.1);
      destruct (arg_validation args) as [[ | ] | ]; cbn;
      try destruct (hvd_rank =? 0); cbn;
      rewrite ?(call_quiet _ _ _ (Hq _ _)), ?app_nil_r, <- ?app_assoc; reflexivity.
Qed.

(** With real data and a total batch of zero [get_config] fails right after
    the line that logs the towers: the division for [steps_per_epoch] raises
    [ZeroDivisionError] (the logging call having returned), the base learning
    rate is never logged and no configuration is built. *)
Theorem get_config_zero_total_batch raises hvd_size hvd_rank args m tr :
  arg_batch args * hvd_size = 0 ->
  exists e,
    get_config raises hvd_size hvd_rank args m false tr =
      (tr ++ [logger_info "#Tower: {}; Batch size per tower: {}"
                          [FInt hvd_size; FInt (arg_batch args)]], inl e) /\
    (raises tr (logger_info "#Tower: {}; Batch size per tower: {}"
                            [FInt hvd_size; FInt (arg_batch args)]) = false ->
     e = ZeroDivisionError).
Proof.
  intros Hzero. unfold get_config, bind, call, true_div. rewrite Hzero. cbn.
  destruct (raises tr _).
  - eexists. split; [reflexivity | discriminate].
  - exists ZeroDivisionError. split; reflexivity.
Qed.

Lemma get_config_zero_total_batch_witness :
  get_config never_raises 8 0 (with_batch 0 default_args) (resnet50 (1 # 8)) false [] =
    ([logger_info "#Tower: {}; Batch size per tower: {}" [FInt 8; FInt 0]],
     inl ZeroDivisionError).
Proof.
  destruct (get_config_zero_total_batch never_raises 8 0 (with_batch 0 default_args)
              (resnet50 (1 # 8)) [] eq_refl) as (e & Hrun & He).
  rewrite Hrun, (He eq_refl). reflexivity.
Defined.

(** With fake data [get_config] never divides: whatever the batch size and
    the number of workers (zero included), as long as the total batch is in
    the range of a float (below 2^1024 in magnitude; beyond, Python cannot
    convert the quotient for the base learning rate, which the embedding does
    not model), it returns a configuration with 50 steps per epoch over a
    staged queue of fake images of the per-worker batch size, and its first
    call logs the base learning rate (the towers are not logged). *)
Theorem get_config_fake raises hvd_size hvd_rank args m tr :
  quiet raises ->
  Z.abs (arg_batch args * hvd_size) < 2 ^ 1024 ->
  exists rest cfg,
    get_config raises hvd_size hvd_rank args m true tr =
      (tr ++ logger_info "Base LR: {}" [FFloat (BASE_LR (arg_batch args * hvd_size))]
          :: rest, inr cfg) /\
    steps_per_epoch cfg = 50 /\
    data cfg =
      StagingInput
        (QueueInput (FakeData [[arg_batch args; 224; 224; 3]; [arg_batch args]] 1000
                              false ["uint8"; "int32"])) None /\
    max_epoch cfg = (if arg_fake args then 35 else 90).
Proof.
  intros Hq _.
  rewrite (get_config_run raises hvd_size hvd_rank args m true tr Hq) by now left.
  eexists _, _. split; [reflexivity |]. repeat split.
Qed.

Lemma get_config_fake_witness :
  exists rest cfg,
    get_config never_raises 0 0 default_args (resnet50 1) true [] =
      (logger_info "Base LR: {}" [FFloat (BASE_LR 0)] :: rest, inr cfg) /\
    steps_per_epoch cfg = 50.
Proof.
  destruct (get_config_fake never_raises 0 0 default_args (resnet50 1) []
              never_raises_quiet) as (rest & cfg & Hrun & Hsteps & _).
  - reflexivity.
  - exists rest, cfg. split; [exact Hrun | exact Hsteps].
Defined.

Lemma filter_runner_lr (steps total_batch : Z) :
  List.filter is_inference_runner (lr_callbacks steps total_batch) = [].
Proof.
  unfold lr_callbacks. destruct (Qgtb (BASE_LR total_batch) 0.1); reflexivity.
Qed.

Lemma validation_runner_runners hvd_size hvd_rank args :
  forallb is_inference_runner (validation_runner hvd_size hvd_rank args) = true.
Proof.
  unfold validation_runner.
  destruct (arg_validation args) as [[ | ] | ]; try destruct (hvd_rank =? 0); reflexivity.
Qed.

(** The warmup is added exactly from a total batch of 512 on: below, no
    step-based setter is among the callbacks; from 512 on there is exactly
    one, linear from 0.1 at step 0 to the base learning rate at step
    [5 * steps_per_epoch], and it is the callback right after the decay
    setter. *)
Theorem warmup_from_512 raises hvd_size hvd_rank args m fake :
  quiet raises ->
  fake = true \/ arg_batch args * hvd_size <> 0 ->
  exists tr cfg,
    get_config raises hvd_size hvd_rank args m fake [] = (tr, inr cfg) /\
    List.filter is_warmup (callbacks cfg) =
      (if 512 <=? arg_batch args * hvd_size
       then [ ScheduledHyperParamSetter "learning_rate"
                [(0, 0.1%Q);
                 (5 * steps_per_epoch cfg, BASE_LR (arg_batch args * hvd_size))]
                (Some "linear") true ]
       else []) /\
    (512 <= arg_batch args * hvd_size ->
     nth_error (callbacks cfg) 3 =
       Some (ScheduledHyperParamSetter "learning_rate"
               [(0, 0.1%Q);
                (5 * steps_per_epoch cfg, BASE_LR (arg_batch args * hvd_size))]
               (Some "linear") true)).
Proof.
  intros Hq Hok.
  rewrite (get_config_run raises hvd_size hvd_rank args m fake [] Hq Hok).
  eexists _, _. split; [reflexivity |]. cbn [callbacks steps_per_epoch].
  rewrite List.filter_app,
    (filter_warmup_runners _ (validation_runner_runners hvd_size hvd_rank args)),
    app_nil_r.
  unfold lr_callbacks.
  destruct (Z.leb_spec 512 (arg_batch args * hvd_size)) as [Hge | Hlt].
  - rewrite BASE_LR_warmup by exact Hge. split; reflexivity.
  - rewrite BASE_LR_no_warmup by exact Hlt. split; [reflexivity | lia].
Qed.

Lemma warmup_from_512_witness :
  exists tr cfg,
    get_config never_raises 16 0 default_args (resnet50 (1 # 16)) false [] = (tr, inr cfg) /\
    List.filter is_warmup (callbacks cfg) =
      [ ScheduledHyperParamSetter "learning_rate"
          [(0, 0.1%Q); (5 * 2502, 0.2%Q)] (Some "linear") true ].
Proof.
  destruct (warmup_from_512 never_raises 16 0 default_args (resnet50 (1 # 16)) false
              never_raises_quiet) as (tr & cfg & Hrun & Hwarm & _).
  - right. vm_compute. discriminate.
  - exists tr, cfg. split; [exact Hrun |]. rewrite Hwarm.
    vm_compute in Hrun. injection Hrun as _ <-. reflexivity.
Defined.

(** The floor division of [BASE_LR] never overshoots the linear scaling rule
    and falls short of it by less than 0.1; it meets the rule exactly on the
    multiples of 256; and it never decreases when the total batch grows. *)
Theorem BASE_LR_floor_bounds (total_batch : Z) :
  (BASE_LR total_batch <= 0.1 * (inject_Z total_batch / 256))%Q /\
  (0.1 * (inject_Z total_batch / 256) < BASE_LR total_batch + 0.1)%Q /\
  ((BASE_LR total_batch == 0.1 * (inject_Z total_batch / 256))%Q <->
   total_batch mod 256 = 0) /\
  (forall larger, total_batch <= larger ->
     (BASE_LR total_batch <= BASE_LR larger)%Q).
Proof.
  unfold BASE_LR.
  pose proof (Z.div_mod total_batch 256 ltac:(lia)) as Hdm.
  pose proof (Z.mod_pos_bound total_batch 256 ltac:(lia)) as [Hr0 Hr1].
  assert (Hq : (inject_Z total_batch ==
                256 * inject_Z (total_batch / 256) + inject_Z (total_batch mod 256))%Q).
  { rewrite Hdm at 1. rewrite inject_Z_plus, inject_Z_mult. reflexivity. }
  rewrite Zle_Qle in Hr0. rewrite Zlt_Qlt in Hr1.
  change (inject_Z 0) with 0%Q in Hr0. change (inject_Z 256) with 256%Q in Hr1.
  unfold Qdiv. change (/ 256)%Q with (1 # 256)%Q.
  repeat split.
  - rewrite Hq. lra.
  - rewrite Hq. lra.
  - intros E. rewrite Hq in E.
    assert (Hz : (inject_Z (total_batch mod 256) == inject_Z 0)%Q)
      by (change (inject_Z 0) with 0%Q; lra).
    unfold Qeq in Hz. cbn in Hz. lia.
  - intros E. rewrite Hq, E. change (inject_Z 0) with 0%Q. lra.
  - intros larger Hle.
    assert (Hdiv : total_batch / 256 <= larger / 256) by (apply Z.div_le_mono; lia).
    rewrite Zle_Qle in Hdiv. lra.
Qed.

Lemma BASE_LR_floor_bounds_witness :
  (BASE_LR 384 <= BASE_LR 512)%Q /\ (BASE_LR 384 <= 0.1 * (inject_Z 384 / 256))%Q.
Proof.
  destruct (BASE_LR_floor_bounds 384) as (Hle & _ & _ & Hmono).
  split; [apply Hmono; lia | exact Hle].
Defined.

(** ** Steps per epoch at the edges *)

Lemma np_round_lower (q : Q) : (1 # 2 < q)%Q -> 1 <= np_round q.
Proof.
  intros Hq. pose proof (np_round_half q) as Hh. apply Qabs_Qle_condition in Hh.
  assert (H0 : (inject_Z 0 < inject_Z (np_round q))%Q)
    by (change (inject_Z 0) with 0%Q; lra).
  rewrite <- Zlt_Qlt in H0. lia.
Qed.

Lemma np_round_upper (q : Q) (n : Z) : (q <= inject_Z n)%Q -> np_round q <= n.
Proof.
  intros Hq. pose proof (np_round_half q) as Hh. apply Qabs_Qle_condition in Hh.
  assert (H0 : (inject_Z (np_round q) < inject_Z (n + 1))%Q)
    by (rewrite inject_Z_plus; change (inject_Z 1) with 1%Q; lra).
  rewrite <- Zlt_Qlt in H0. lia.
Qed.

Lemma np_round_zero (q : Q) : (0 <= q <= 1 # 2)%Q -> np_round q = 0.
Proof.
  intros [Hlo Hhi]. unfold np_round.
  assert (Hf : Qfloor q = 0).
  { pose proof (Qfloor_le q) as H1. pose proof (Qlt_floor q) as H2.
    assert (Ha : (inject_Z (Qfloor q) < inject_Z 1)%Q)
      by (change (inject_Z 1) with 1%Q; lra).
    assert (Hb : (inject_Z 0 < inject_Z (Qfloor q + 1))%Q)
      by (change (inject_Z 0) with 0%Q; lra).
    rewrite <- Zlt_Qlt in Ha, Hb. lia. }
  rewrite Hf. change (inject_Z 0) with 0%Q.
  destruct (Qcompare_spec (q - 0) (1 # 2)) as [E | L | G]; try reflexivity. lra.
Qed.

Lemma steps_for_real_range (tb : Z) :
  0 < tb ->
  0 <= steps_for false tb <= 1281167 /\
  (steps_for false tb = 0 <-> 2562334 <= tb).
Proof.
  intros Hpos. unfold steps_for.
  assert (Hb : (0 < inject_Z tb)%Q) by (change 0%Q with (inject_Z 0); now rewrite <- Zlt_Qlt).
  assert (Hb1 : (1 <= inject_Z tb)%Q)
    by (change 1%Q with (inject_Z 1); rewrite <- Zle_Qle; lia).
  assert (Hq0 : (0 <= inject_Z 1281167 / inject_Z tb)%Q).
  { apply Qle_shift_div_l; [exact Hb |]. change (inject_Z 1281167) with 1281167%Q. lra. }
  assert (Hq1 : (inject_Z 1281167 / inject_Z tb <= inject_Z 1281167)%Q).
  { apply Qle_shift_div_r; [exact Hb |]. change (inject_Z 1281167) with 1281167%Q. lra. }
  split.
  - split; [| now apply np_round_upper].
    destruct (Qlt_le_dec (1 # 2) (inject_Z 1281167 / inject_Z tb)) as [Hbig | Hsmall].
    + pose proof (np_round_lower _ Hbig). lia.
    + rewrite np_round_zero; [lia | now split].
  - destruct (Z_lt_le_dec tb 2562334) as [Hlt | Hge].
    + assert (Hbig : (1 # 2 < inject_Z 1281167 / inject_Z tb)%Q).
      { apply Qlt_shift_div_l; [exact Hb |]. rewrite Zlt_Qlt in Hlt.
        change (inject_Z 1281167) with 1281167%Q.
        change (inject_Z 2562334) with 2562334%Q in Hlt. lra. }
      pose proof (np_round_lower _ Hbig). split; intros; lia.
    + assert (Hsmall : (inject_Z 1281167 / inject_Z tb <= 1 # 2)%Q).
      { apply Qle_shift_div_r; [exact Hb |]. rewrite Zle_Qle in Hge.
        change (inject_Z 1281167) with 1281167%Q.
        change (inject_Z 2562334) with 2562334%Q in Hge. lra. }
      split; [intros _; exact Hge | intros _; apply np_round_zero; now split].
Qed.

(** With real data and a positive total batch, [steps_per_epoch] lies between
    0 and 1281167; it is 1281167 for a total batch of one, and it is 0
    exactly from a total batch of 2562334 on (twice the data set: the
    quotient is at most one half and rounds down, the tie going to the even
    0). *)
Theorem steps_per_epoch_range raises hvd_size hvd_rank args m :
  quiet raises ->
  0 < arg_batch args * hvd_size ->
  exists tr cfg,
    get_config raises hvd_size hvd_rank args m false [] = (tr, inr cfg) /\
    0 <= steps_per_epoch cfg <= 1281167 /\
    (steps_per_epoch cfg = 0 <-> 2562334 <= arg_batch args * hvd_size) /\
    (arg_batch args * hvd_size = 1 -> steps_per_epoch cfg = 1281167).
Proof.
  intros Hq Hpos.
  rewrite (get_config_run raises hvd_size hvd_rank args m false [] Hq) by (right; lia).
  eexists _, _. split; [reflexivity |]. cbn [steps_per_epoch].
  destruct (steps_for_real_range _ Hpos) as [Hrange Hzero].
  split; [exact Hrange |]. split; [exact Hzero |].
  intros ->. reflexivity.
Qed.

Lemma steps_per_epoch_range_witness :
  exists tr cfg,
    get_config never_raises 2562334 0 (with_batch 1 default_args) (resnet50 1) false []
      = (tr, inr cfg) /\
    steps_per_epoch cfg = 0.
Proof.
  destruct (steps_per_epoch_range never_raises 2562334 0 (with_batch 1 default_args)
              (resnet50 1) never_raises_quiet eq_refl) as (tr & cfg & Hrun & _ & Hzero & _).
  exists tr, cfg. split; [exact Hrun |]. apply Hzero. vm_compute. discriminate.
Defined.

(** The warmup, when it is there, rises: its target, the base learning rate,
    is more than its start 0.1; and its end step [5 * steps_per_epoch] comes
    after its start step 0 exactly when the data is fake or the total batch
    is below 2562334 (from there on both points of the schedule sit at step
    0). *)
Theorem warmup_rises raises hvd_size hvd_rank args m fake :
  quiet raises ->
  512 <= arg_batch args * hvd_size ->
  exists tr cfg end_step,
    get_config raises hvd_size hvd_rank args m fake [] = (tr, inr cfg) /\
    List.filter is_warmup (callbacks cfg) =
      [ ScheduledHyperParamSetter "learning_rate"
          [(0, 0.1%Q); (end_step, BASE_LR (arg_batch args * hvd_size))]
          (Some "linear") true ] /\
    (0.1 < BASE_LR (arg_batch args * hvd_size))%Q /\
    0 <= end_step /\
    (0 < end_step <-> fake = true \/ arg_batch args * hvd_size < 2562334).
Proof.
  intros Hq Hge.
  rewrite (get_config_run raises hvd_size hvd_rank args m fake [] Hq) by (right; lia).
  eexists _, _, (5 * steps_for fake (arg_batch args * hvd_size)).
  split; [reflexivity |]. cbn [callbacks].
  rewrite List.filter_app,
    (filter_warmup_runners _ (validation_runner_runners hvd_size hvd_rank args)),
    app_nil_r.
  unfold lr_callbacks. pose proof (BASE_LR_warmup _ Hge) as Hgt. rewrite Hgt.
  split; [reflexivity |]. split.
  - unfold Qgtb in Hgt.
    destruct (Qcompare_spec (BASE_LR (arg_batch args * hvd_size)) 0.1); try discriminate.
    assumption.
  - destruct fake.
    + cbn. split; [lia |]. split; [now left | lia].
    + destruct (steps_for_real_range (arg_batch args * hvd_size)) as [Hrange Hzero];
        [lia |].
      split; [lia |]. split.
      * intros Hpos. right.
        destruct (Z_lt_le_dec (arg_batch args * hvd_size) 2562334) as [Hlt | Hbig];
          [assumption |]. apply Hzero in Hbig. lia.
      * intros [? | Hlt]; [discriminate |].
        assert (steps_for false (arg_batch args * hvd_size) <> 0)
          by (intros E; apply Hzero in E; lia). lia.
Qed.

Lemma warmup_rises_witness :
  exists tr cfg end_step,
    get_config never_raises 16 0 default_args (resnet50 (1 # 16)) false [] = (tr, inr cfg) /\
    List.filter is_warmup (callbacks cfg) =
      [ ScheduledHyperParamSetter "learning_rate"
          [(0, 0.1%Q); (end_step, BASE_LR (32 * 16))] (Some "linear") true ] /\
    0 < end_step.
Proof.
  destruct (warmup_rises never_raises 16 0 default_args (resnet50 (1 # 16)) false
              never_raises_quiet) as (tr & cfg & end_step & Hrun & Hwarm & _ & _ & Hend).
  - vm_compute. discriminate.
  - exists tr, cfg, end_step. split; [exact Hrun |]. split; [exact Hwarm |].
    apply Hend. right. reflexivity.
Defined.

(** ** Validation during training *)

Lemma filter_val_config_calls hvd_size hvd_rank args fake :
  List.filter is_val_dataflow_call (config_calls hvd_size hvd_rank args fake) =
  validation_calls hvd_size hvd_rank args.
Proof.
  unfold config_calls, validation_calls.
  destruct fake; cbn; destruct (arg_validation args) as [[ | ] | ];
    try destruct (hvd_rank =? 0); reflexivity.
Qed.

Lemma filter_runner_callbacks hvd_size hvd_rank args steps total_batch :
  List.filter is_inference_runner
    (lr_callbacks steps total_batch ++ validation_runner hvd_size hvd_rank args) =
  validation_runner hvd_size hvd_rank args.
Proof.
  rewrite List.filter_app, filter_runner_lr. cbn [app].
  unfold validation_runner.
  destruct (arg_validation args) as [[ | ] | ]; try destruct (hvd_rank =? 0); reflexivity.
Qed.

(** With [--validation master] only rank 0 validates: on rank 0 the
    configuration ends with one inference runner over the whole validation
    set (batch 64, no split) with the two stock classification errors; on
    every other rank no validation dataflow is requested and no inference
    runner is among the callbacks. *)
Theorem validation_master_rank_0_only raises hvd_size hvd_rank args m fake :
  quiet raises ->
  fake = true \/ arg_batch args * hvd_size <> 0 ->
  arg_validation args = Some master ->
  exists tr cfg,
    get_config raises hvd_size hvd_rank args m fake [] = (tr, inr cfg) /\
    (hvd_rank = 0 ->
     List.filter is_val_dataflow_call tr =
       [get_val_dataflow (arg_data args) 64 (fbresnet_augmentor false) None] /\
     List.filter is_inference_runner (callbacks cfg) =
       [InferenceRunner
          (QueueInput (ValDataflow (arg_data args) 64 (fbresnet_augmentor false) None))
          [ClassificationError "wrong-top1" "val-error-top1";
           ClassificationError "wrong-top5" "val-error-top5"] true] /\
     last (callbacks cfg) =
       Some (InferenceRunner
          (QueueInput (ValDataflow (arg_data args) 64 (fbresnet_augmentor false) None))
          [ClassificationError "wrong-top1" "val-error-top1";
           ClassificationError "wrong-top5" "val-error-top5"] true)) /\
    (hvd_rank <> 0 ->
     List.filter is_val_dataflow_call tr = [] /\
     List.filter is_inference_runner (callbacks cfg) = []).
Proof.
  intros Hq Hok Hval.
  rewrite (get_config_run raises hvd_size hvd_rank args m fake [] Hq Hok).
  eexists _, _. split; [reflexivity |]. cbn [callbacks app].
  rewrite filter_val_config_calls, filter_runner_callbacks.
  unfold validation_calls, validation_runner. rewrite Hval.
  split.
  - intros ->. cbn [Z.eqb]. repeat split. now rewrite last_snoc.
  - intros Hne. destruct (Z.eqb_spec hvd_rank 0); [contradiction |]. split; reflexivity.
Qed.

Lemma validation_master_rank_0_only_witness :
  exists tr cfg,
    get_config never_raises 8 3
      {| arg_data := Some "/data/ILSVRC12"; arg_logdir := "train_log/tmp";
         arg_load := None; arg_fake := false; arg_depth := 50; arg_eval := false;
         arg_validation := Some master; arg_batch := 32 |} (resnet50 (1 # 8)) false []
      = (tr, inr cfg) /\
    List.filter is_val_dataflow_call tr = [] /\
    List.filter is_inference_runner (callbacks cfg) = [].
Proof.
  destruct (validation_master_rank_0_only never_raises 8 3
      {| arg_data := Some "/data/ILSVRC12"; arg_logdir := "train_log/tmp";
         arg_load := None; arg_fake := false; arg_depth := 50; arg_eval := false;
         arg_validation := Some master; arg_batch := 32 |} (resnet50 (1 # 8)) false
      never_raises_quiet) as (tr & cfg & Hrun & _ & Hother).
  - right. vm_compute. discriminate.
  - reflexivity.
  - exists tr, cfg. split; [exact Hrun |]. apply Hother. discriminate.
Defined.

(** With [--validation distributed] every worker validates its own split:
    whatever its rank, it requests the validation dataflow (batch 64) split
    in [hvd.size()] parts and takes the part of its rank, and the
    configuration ends with one inference runner over it that carries the two
    Horovod classification errors and is not restricted to the chief. *)
Theorem validation_distributed_every_rank raises hvd_size hvd_rank args m fake :
  quiet raises ->
  fake = true \/ arg_batch args * hvd_size <> 0 ->
  arg_validation args = Some distributed ->
  exists tr cfg,
    get_config raises hvd_size hvd_rank args m fake [] = (tr, inr cfg) /\
    List.filter is_val_dataflow_call tr =
      [get_val_dataflow (arg_data args) 64 (fbresnet_augmentor false)
                        (Some (hvd_size, hvd_rank))] /\
    List.filter is_inference_runner (callbacks cfg) =
      [InferenceRunner
         (QueueInput (ValDataflow (arg_data args) 64 (fbresnet_augmentor false)
                                  (Some (hvd_size, hvd_rank))))
         [HorovodClassificationError "wrong-top1" "val-error-top1";
          HorovodClassificationError "wrong-top5" "val-error-top5"] false] /\
    last (callbacks cfg) =
      Some (InferenceRunner
         (QueueInput (ValDataflow (arg_data args) 64 (fbresnet_augmentor false)
                                  (Some (hvd_size, hvd_rank))))
         [HorovodClassificationError "wrong-top1" "val-error-top1";
          HorovodClassificationError "wrong-top5" "val-error-top5"] false).
Proof.
  intros Hq Hok Hval.
  rewrite (get_config_run raises hvd_size hvd_rank args m fake [] Hq Hok).
  eexists _, _. split; [reflexivity |]. cbn [callbacks app].
  rewrite filter_val_config_calls, filter_runner_callbacks.
  unfold validation_calls, validation_runner. rewrite Hval.
  repeat split. now rewrite last_snoc.
Qed.

Lemma validation_distributed_every_rank_witness :
  exists tr cfg,
    get_config never_raises 8 3
      {| arg_data := Some "/data/ILSVRC12"; arg_logdir := "train_log/tmp";
         arg_load := None; arg_fake := false; arg_depth := 50; arg_eval := false;
         arg_validation := Some distributed; arg_batch := 32 |} (resnet50 (1 # 8)) false []
      = (tr, inr cfg) /\
    List.filter is_val_dataflow_call tr =
      [get_val_dataflow (Some "/data/ILSVRC12") 64 (fbresnet_augmentor false)
                        (Some (8, 3))].
Proof.
  destruct (validation_distributed_every_rank never_raises 8 3
      {| arg_data := Some "/data/ILSVRC12"; arg_logdir := "train_log/tmp";
         arg_load := None; arg_fake := false; arg_depth := 50; arg_eval := false;
         arg_validation := Some distributed; arg_batch := 32 |} (resnet50 (1 # 8)) false
      never_raises_quiet) as (tr & cfg & Hrun & Hcalls & _).
  - right. vm_compute. discriminate.
  - reflexivity.
  - exists tr, cfg. split; [exact Hrun | exact Hcalls].
Defined.

(** Without [--validation] the configuration has exactly the learning-rate
    callbacks: the model saver, the time estimate and the decay setter,
    followed by the warmup setter from a total batch of 512 on; no validation
    dataflow is requested and no inference runner is added. *)
Theorem no_validation_no_runner raises hvd_size hvd_rank args m fake :
  quiet raises ->
  fake = true \/ arg_batch args * hvd_size <> 0 ->
  arg_validation args = None ->
  exists tr cfg,
    get_config raises hvd_size hvd_rank args m fake [] = (tr, inr cfg) /\
    List.filter is_val_dataflow_call tr = [] /\
    List.filter is_inference_runner (callbacks cfg) = [] /\
    callbacks cfg =
      [ ModelSaver 100;
        EstimatedTimeLeft;
        ScheduledHyperParamSetter "learning_rate"
          [(30, (BASE_LR (arg_batch args * hvd_size) * 0.1)%Q);
           (60, (BASE_LR (arg_batch args * hvd_size) * 0.01)%Q);
           (80, (BASE_LR (arg_batch args * hvd_size) * 0.001)%Q)] None false ] ++
      (if 512 <=? arg_batch args * hvd_size
       then [ ScheduledHyperParamSetter "learning_rate"
                [(0, 0.1%Q);
                 (5 * steps_per_epoch cfg, BASE_LR (arg_batch args * hvd_size))]
                (Some "linear") true ]
       else []).
Proof.
  intros Hq Hok Hval.
  rewrite (get_config_run raises hvd_size hvd_rank args m fake [] Hq Hok).
  eexists _, _. split; [reflexivity |]. cbn [callbacks app steps_per_epoch].
  rewrite filter_val_config_calls, filter_runner_callbacks.
  unfold validation_calls, validation_runner. rewrite Hval, app_nil_r.
  repeat split. unfold lr_callbacks.
  destruct (Z.leb_spec 512 (arg_batch args * hvd_size)) as [Hge | Hlt].
  - now rewrite BASE_LR_warmup.
  - now rewrite BASE_LR_no_warmup.
Qed.

Lemma no_validation_no_runner_witness :
  exists tr cfg,
    get_config never_raises 8 0 default_args (resnet50 (1 # 8)) false [] = (tr, inr cfg) /\
    callbacks cfg =
      [ ModelSaver 100;
        EstimatedTimeLeft;
        ScheduledHyperParamSetter "learning_rate"
          [(30, (BASE_LR 256 * 0.1)%Q); (60, (BASE_LR 256 * 0.01)%Q);
           (80, (BASE_LR 256 * 0.001)%Q)] None false ].
Proof.
  destruct (no_validation_no_runner never_raises 8 0 default_args (resnet50 (1 # 8)) false
              never_raises_quiet) as (tr & cfg & Hrun & _ & _ & Hcbs).
  - right. vm_compute. discriminate.
  - reflexivity.
  - exists tr, cfg. split; [exact Hrun | exact Hcbs].
Defined.

(** ** The order of the calls *)

(** Whatever raises, the calls of [get_config] are an initial part of
    [config_calls]; when it returns, it made them all and the configuration
    is the one of [get_config_run]. *)
Lemma get_config_prefix raises hvd_size hvd_rank args m fake tr :
  (exists n,
     fst (get_config raises hvd_size hvd_rank args m fake tr) =
       tr ++ firstn n (config_calls hvd_size hvd_rank args fake)) /\
  (forall cfg,
     snd (get_config raises hvd_size hvd_rank args m fake tr) = inr cfg ->
     fst (get_config raises hvd_size hvd_rank args m fake tr) =
       tr ++ config_calls hvd_size hvd_rank args fake /\
     cfg = {| model := m;
              data := config_data fake (arg_batch args);
              callbacks := lr_callbacks (steps_for fake (arg_batch args * hvd_size))
                                        (arg_batch args * hvd_size)
                           ++ validation_runner hvd_size hvd_rank args;
              steps_per_epoch := steps_for fake (arg_batch args * hvd_size);
              max_epoch := if arg_fake args then 35 else 90 |}).
Proof.
  unfold get_config, config_calls, validation_calls, validation_runner,
    lr_callbacks, config_data, steps_for, bind, call, true_div, ret, raise.
  destruct fake; [| destruct (arg_batch args * hvd_size =? 0)];
    destruct (Qgtb (BASE_LR (arg_batch args * hvd_size)) 0.1);
    destruct (arg_validation args) as [[ | ] | ]; try destruct (hvd_rank =? 0);
    cbn;
    repeat match goal with
           | |- context [raises ?t ?e] => destruct (raises t e); cbn
           end;
    (split;
     [ rewrite <- ?app_assoc; cbn;
       first [ now exists 0%nat; rewrite ?app_nil_r
             | now exists 1%nat | now exists 2%nat | now exists 3%nat ]
     | intros cfg H; try discriminate;
       injection H as <-; rewrite <- ?app_assoc, ?app_nil_r; cbn; split; reflexivity ]).
Qed.

Lemma initial_part_app {A} (pre l rest : list A) (n : nat) :
  exists k, pre ++ firstn n l = firstn k (pre ++ l ++ rest).
Proof.
  exists (length pre + Nat.min n (length l))%nat.
  rewrite firstn_app_2, firstn_app.
  replace (Nat.min n (length l) - length l)%nat with 0%nat by lia.
  rewrite firstn_0, app_nil_r. f_equal.
  destruct (Nat.le_ge_cases n (length l)) as [Hle | Hge].
  - now rewrite Nat.min_l.
  - rewrite Nat.min_r by exact Hge. now rewrite firstn_all, firstn_all2.
Qed.

(** Whatever raises, a training run makes an initial part of the calls of
    [training_calls]: the host name is logged, Horovod is initialised, rank 0
    sets the logger directory, the model is constructed, [get_config] makes
    its calls and the trainer is launched.  A run that returns made all of
    them, which takes [--load] unset, at least one worker and a depth of the
    table. *)
Lemma main_training_prefix raises hvd_size hvd_rank hostname args :
  arg_eval args = false ->
  (exists n,
     fst (main raises hvd_size hvd_rank hostname args []) =
       firstn n (training_calls hvd_size hvd_rank hostname args)) /\
  (snd (main raises hvd_size hvd_rank hostname args []) = inr tt ->
   fst (main raises hvd_size hvd_rank hostname args []) =
     training_calls hvd_size hvd_rank hostname args /\
   arg_load args = None /\ hvd_size <> 0 /\
   is_Some (num_blocks_table !! arg_depth args)).
Proof.
  intros Heval.
  assert (Hrest : forall pre r,
    r =
      (let (tr', s) :=
         (if hvd_size =? 0 then raise ZeroDivisionError
          else ret (1 / inject_Z hvd_size)%Q) pre in
       match s with
       | inl e => (tr', inl e)
       | inr a =>
           let (tr'0, s0) :=
             let (tr'0, s0) := call raises (ImageNetModel_init "NCHW") tr' in
             match s0 with
             | inl e => (tr'0, inl e)
             | inr _ =>
                 match num_blocks_table !! arg_depth args with
                 | Some blocks => ret {| _loss_scale := a; num_blocks := blocks |}
                 | None => raise (KeyError (arg_depth args))
                 end tr'0
             end in
           match s0 with
           | inl e => (tr'0, inl e)
           | inr a0 =>
               let (tr'1, s1) :=
                 get_config raises hvd_size hvd_rank args a0 (arg_fake args) tr'0 in
               match s1 with
               | inl e => (tr'1, inl e)
               | inr a1 =>
                   call raises (launch_train_with_config a1 (HorovodTrainer false)) tr'1
               end
           end
       end) ->
    (exists n, fst r =
       firstn n (pre ++ [ImageNetModel_init "NCHW"] ++
                 config_calls hvd_size hvd_rank args (arg_fake args) ++
                 [launch_train_with_config (training_config hvd_size hvd_rank args)
                                           (HorovodTrainer false)])) /\
    (snd r = inr tt ->
     fst r = pre ++ [ImageNetModel_init "NCHW"] ++
             config_calls hvd_size hvd_rank args (arg_fake args) ++
             [launch_train_with_config (training_config hvd_size hvd_rank args)
                                       (HorovodTrainer false)] /\
     hvd_size <> 0 /\ is_Some (num_blocks_table !! arg_depth args))).
  { intros pre r.
    destruct (Z.eqb_spec hvd_size 0) as [Hz | Hnz]; cbn [raise ret fst snd].
    { intros ->. split; [| discriminate]. exists (length pre). cbn [fst].
      now rewrite firstn_app, firstn_all, Nat.sub_diag, firstn_0, app_nil_r. }
    unfold call at 1.
    assert (Hinit : exists k, pre ++ [ImageNetModel_init "NCHW"] =
      firstn k (pre ++ [ImageNetModel_init "NCHW"] ++
                config_calls hvd_size hvd_rank args (arg_fake args) ++
                [launch_train_with_config (training_config hvd_size hvd_rank args)
                                          (HorovodTrainer false)])).
    { exists (length pre + 1)%nat. now rewrite firstn_app_2. }
    destruct (raises pre _); cbn [fst snd].
    { intros ->. split; [exact Hinit | discriminate]. }
    destruct (num_blocks_table !! arg_depth args) as [blocks |] eqn:Hdepth;
      cbn [raise ret fst snd].
    2: { intros ->. split; [exact Hinit | discriminate]. }
    destruct (get_config_prefix raises hvd_size hvd_rank args
                {| _loss_scale := 1 / inject_Z hvd_size; num_blocks := blocks |}
                (arg_fake args) (pre ++ [ImageNetModel_init "NCHW"]))
      as [(n & Hn) Hret].
    destruct (get_config raises hvd_size hvd_rank args _ (arg_fake args) _)
      as [tr1 [e | cfg]]; cbn [fst snd] in *.
    - intros ->. cbn [fst snd]. split; [| discriminate]. rewrite Hn, <- app_assoc.
      destruct (initial_part_app [ImageNetModel_init "NCHW"]
                  (config_calls hvd_size hvd_rank args (arg_fake args))
                  [launch_train_with_config (training_config hvd_size hvd_rank args)
                                            (HorovodTrainer false)] n) as (k & Hk).
      rewrite Hk. exists (length pre + k)%nat. now rewrite firstn_app_2.
    - destruct (Hret cfg eq_refl) as [-> ->]. intros ->. rewrite call_trace.
      assert (Hall :
        ((pre ++ [ImageNetModel_init "NCHW"]) ++
           config_calls hvd_size hvd_rank args (arg_fake args)) ++
        [launch_train_with_config
           {| model := {| _loss_scale := 1 / inject_Z hvd_size; num_blocks := blocks |};
              data := config_data (arg_fake args) (arg_batch args);
              callbacks := lr_callbacks
                             (steps_for (arg_fake args) (arg_batch args * hvd_size))
                             (arg_batch args * hvd_size)
                           ++ validation_runner hvd_size hvd_rank args;
              steps_per_epoch := steps_for (arg_fake args) (arg_batch args * hvd_size);
              max_epoch := if arg_fake args then 35 else 90 |} (HorovodTrainer false)] =
        pre ++ [ImageNetModel_init "NCHW"] ++
        config_calls hvd_size hvd_rank args (arg_fake args) ++
        [launch_train_with_config (training_config hvd_size hvd_rank args)
                                  (HorovodTrainer false)]).
      { unfold training_config. rewrite Hdepth. cbn [default].
        now rewrite <- !app_assoc. }
      rewrite Hall. split.
      + eexists. symmetry. apply firstn_all.
      + intros _. split; [reflexivity |]. split; [exact Hnz | now exists blocks]. }
  remember (main raises hvd_size hvd_rank hostname args []) as r eqn:Hr. revert Hr.
  unfold main, training_calls, Model_init, float_div, bind.
  rewrite Heval. unfold call at 1. cbn [app].
  destruct (raises [] _); cbn [fst snd].
  { intros ->. split; [now exists 1%nat | discriminate]. }
  destruct (arg_load args) as [path |] eqn:Hload; cbn [assert ret raise fst snd].
  { intros ->. split; [now exists 1%nat | discriminate]. }
  unfold call at 1. cbn [app].
  destruct (raises [_] hvd_init); cbn [fst snd].
  { intros ->. split; [now exists 2%nat | discriminate]. }
  destruct (Z.eqb_spec hvd_rank 0) as [Hr | Hr].
  - unfold call at 1. destruct (raises [_; _] _); cbn [fst snd app].
    { intros ->. split; [now exists 3%nat | discriminate]. }
    intros Hrun.
    destruct (Hrest [logger_info "Running on {}" [FStr hostname]; hvd_init;
                     logger_set_logger_dir (arg_logdir args) "d"] r Hrun) as [Hpre Hall].
    split; [exact Hpre |].
    intros Hok. destruct (Hall Hok) as (H1 & H2 & H3). repeat split; assumption.
  - cbn [ret fst snd app]. intros Hrun.
    destruct (Hrest [logger_info "Running on {}" [FStr hostname]; hvd_init] r Hrun)
      as [Hpre Hall].
    split; [exact Hpre |].
    intros Hok. destruct (Hall Hok) as (H1 & H2 & H3). repeat split; assumption.
Qed.

Lemma precedes_here (a b : event) (l : list event) :
  b <> a -> precedes a b (a :: l).
Proof.
  intros Hne [| x pre] post E; cbn in E; injection E as E1 E2.
  - now elim Hne.
  - subst x. now left.
Qed.

Lemma precedes_skip (a b x : event) (l : list event) :
  x <> b -> precedes a b l -> precedes a b (x :: l).
Proof.
  intros Hne Hl [| y pre] post E; cbn in E; injection E as E1 E2.
  - now elim Hne.
  - right. now apply (Hl pre post).
Qed.

Lemma precedes_initial_part (a b : event) (l : list event) (n : nat) :
  precedes a b l -> precedes a b (firstn n l).
Proof.
  intros Hl pre post E. apply (Hl pre (post ++ skipn n l)).
  rewrite <- (firstn_skipn n l) at 1. rewrite E, <- app_assoc. reflexivity.
Qed.

Lemma In_config_calls (e : event) hvd_size hvd_rank args fake :
  In e (config_calls hvd_size hvd_rank args fake) ->
  (exists f a, e = logger_info f a) \/
  (exists splits,
     e = get_val_dataflow (arg_data args) 64 (fbresnet_augmentor false) splits).
Proof.
  unfold config_calls, validation_calls. rewrite !in_app_iff. intros [H | [H | H]].
  - destruct fake; [destruct H |]. destruct H as [<- | []]. left. now eexists _, _.
  - destruct H as [<- | []]. left. now eexists _, _.
  - destruct (arg_validation args) as [[ | ] | ]; try destruct (hvd_rank =? 0);
      try destruct H as [<- | []]; try destruct H; right; now eexists.
Qed.

(** What a training run never does, whatever raises: it never asks for a
    model loader and never evaluates; only rank 0 sets the logger directory;
    every validation dataflow it requests has batch size 64; and the trainer
    is launched only with the configuration of [get_config] and a
    non-averaging [HorovodTrainer]. *)
Theorem training_run_calls raises hvd_size hvd_rank hostname args :
  arg_eval args = false ->
  forall e,
    In e (fst (main raises hvd_size hvd_rank hostname args [])) ->
    match e with
    | get_model_loader _ => False
    | eval_on_ILSVRC12 _ _ _ => False
    | logger_set_logger_dir dir action =>
        hvd_rank = 0 /\ dir = arg_logdir args /\ action = "d"
    | get_val_dataflow datadir b augs _ =>
        datadir = arg_data args /\ b = 64 /\ augs = fbresnet_augmentor false
    | launch_train_with_config cfg t =>
        cfg = training_config hvd_size hvd_rank args /\ t = HorovodTrainer false
    | ImageNetModel_init data_format => data_format = "NCHW"
    | logger_info _ _ => True
    | hvd_init => True
    end.
Proof.
  intros Heval e Hin.
  destruct (proj1 (main_training_prefix raises hvd_size hvd_rank hostname args Heval))
    as (n & Hn).
  rewrite Hn in Hin. apply In_initial_part in Hin.
  unfold training_calls in Hin. rewrite !in_app_iff in Hin.
  destruct Hin as [[<- | [<- | []]] | [Hdir | [[<- | []] | [Hcfg | [<- | []]]]]];
    try exact I; try reflexivity; try (split; reflexivity).
  - destruct (Z.eqb_spec hvd_rank 0) as [Hr | Hr]; [| destruct Hdir].
    destruct Hdir as [<- | []]. repeat split. exact Hr.
  - apply In_config_calls in Hcfg.
    destruct Hcfg as [(f & a & ->) | (splits & ->)]; [exact I | repeat split].
Qed.

Lemma training_run_calls_witness :
  0 = 0 /\ "train_log/tmp" = arg_logdir default_args /\ "d" = "d".
Proof.
  apply (training_run_calls never_raises 8 0 "node0" default_args eq_refl
           (logger_set_logger_dir "train_log/tmp" "d")).
  vm_compute. right. right. left. reflexivity.
Defined.

(** The order of a training run, whatever raises: Horovod is initialised
    before the logger directory is set and before the model is constructed,
    and the model is constructed before anything is launched. *)
Theorem training_run_order raises hvd_size hvd_rank hostname args :
  arg_eval args = false ->
  precedes hvd_init (ImageNetModel_init "NCHW")
           (fst (main raises hvd_size hvd_rank hostname args [])) /\
  (forall dir action,
     precedes hvd_init (logger_set_logger_dir dir action)
              (fst (main raises hvd_size hvd_rank hostname args []))) /\
  (forall cfg t,
     precedes (ImageNetModel_init "NCHW") (launch_train_with_config cfg t)
              (fst (main raises hvd_size hvd_rank hostname args []))).
Proof.
  intros Heval.
  destruct (proj1 (main_training_prefix raises hvd_size hvd_rank hostname args Heval))
    as (n & ->).
  unfold training_calls. cbn [app].
  split; [| split]; intros; apply precedes_initial_part.
  - apply precedes_skip; [discriminate |]. apply precedes_here. discriminate.
  - apply precedes_skip; [discriminate |]. apply precedes_here. discriminate.
  - do 2 (apply precedes_skip; [discriminate |]).
    destruct (hvd_rank =? 0); cbn [app].
    + apply precedes_skip; [discriminate |]. apply precedes_here. discriminate.
    + apply precedes_here. discriminate.
Qed.

Lemma training_run_order_witness :
  In hvd_init [logger_info "Running on {}" [FStr "node0"]; hvd_init].
Proof.
  apply (proj1 (training_run_order never_raises 8 3 "node0" default_args eq_refl)
           [logger_info "Running on {}" [FStr "node0"]; hvd_init]
           (skipn 3 (training_calls 8 3 "node0" default_args))).
  vm_compute. reflexivity.
Defined.

(** Whatever raises, an evaluation run makes an initial part of the calls of
    [eval_calls] with the model of [eval_model]; a run that returns made all
    five, with a depth of the table. *)
Lemma main_eval_prefix raises hvd_size hvd_rank hostname args :
  arg_eval args = true ->
  (exists n,
     fst (main raises hvd_size hvd_rank hostname args []) =
       firstn n (eval_calls hostname args (eval_model args))) /\
  (snd (main raises hvd_size hvd_rank hostname args []) = inr tt ->
   fst (main raises hvd_size hvd_rank hostname args []) =
     eval_calls hostname args (eval_model args) /\
   is_Some (num_blocks_table !! arg_depth args)).
Proof.
  intros Heval.
  remember (main raises hvd_size hvd_rank hostname args []) as r eqn:Hr. revert Hr.
  unfold main, Model_init, bind, call, eval_model. rewrite Heval. cbn.
  destruct (raises [] _); cbn.
  { intros ->. split; [now exists 1%nat | discriminate]. }
  destruct (raises [_] _); cbn.
  { intros ->. split; [now exists 2%nat | discriminate]. }
  destruct (raises [_; _] _); cbn.
  { intros ->. split; [now exists 3%nat | discriminate]. }
  destruct (num_blocks_table !! arg_depth args) as [blocks |]; cbn.
  2: { intros ->. split; [now exists 3%nat | discriminate]. }
  destruct (raises [_; _; _] _); cbn.
  { intros ->. split; [now exists 4%nat | discriminate]. }
  destruct (raises [_; _; _; _] _); cbn; intros ->; cbn.
  - split; [now exists 5%nat | discriminate].
  - split; [now exists 5%nat |]. intros _. split; [reflexivity | now exists blocks].
Qed.

(** What an evaluation run never does, whatever raises: it never initialises
    Horovod, never sets the logger directory and never launches training.
    Every validation dataflow it requests is the whole set at batch size 128;
    the loader is asked for the path of [--load]; and the model it evaluates
    has loss scale 1, so that its loss is the cost of the base class as it
    is. *)
Theorem eval_run_calls raises hvd_size hvd_rank hostname args :
  arg_eval args = true ->
  forall e,
    In e (fst (main raises hvd_size hvd_rank hostname args [])) ->
    match e with
    | hvd_init => False
    | logger_set_logger_dir _ _ => False
    | launch_train_with_config _ _ => False
    | get_val_dataflow datadir b augs splits =>
        datadir = arg_data args /\ b = 128 /\ augs = fbresnet_augmentor false /\
        splits = None
    | get_model_loader filename => filename = arg_load args
    | eval_on_ILSVRC12 m s ds =>
        _loss_scale m = 1%Q /\
        (forall inputs, build_graph m inputs = ImageNetModel_build_graph inputs) /\
        s = ModelLoader (arg_load args) /\
        ds = ValDataflow (arg_data args) 128 (fbresnet_augmentor false) None
    | ImageNetModel_init data_format => data_format = "NCHW"
    | logger_info _ _ => True
    end.
Proof.
  intros Heval e Hin.
  destruct (proj1 (main_eval_prefix raises hvd_size hvd_rank hostname args Heval))
    as (n & Hn).
  rewrite Hn in Hin. apply In_initial_part in Hin.
  unfold eval_calls in Hin.
  destruct Hin as [<- | [<- | [<- | [<- | [<- | []]]]]];
    try exact I; try reflexivity; repeat split.
Qed.

Lemma eval_run_calls_witness :
  _loss_scale {| _loss_scale := 1; num_blocks := [3; 4; 23; 3] |} = 1%Q /\
  (forall inputs,
     build_graph {| _loss_scale := 1; num_blocks := [3; 4; 23; 3] |} inputs =
     ImageNetModel_build_graph inputs) /\
  ModelLoader (Some "model.npz") = ModelLoader (Some "model.npz") /\
  ValDataflow (Some "/data/ILSVRC12") 128 (fbresnet_augmentor false) None =
  ValDataflow (Some "/data/ILSVRC12") 128 (fbresnet_augmentor false) None.
Proof.
  apply (eval_run_calls never_raises 1 0 "node0"
           {| arg_data := Some "/data/ILSVRC12"; arg_logdir := "train_log/tmp";
              arg_load := Some "model.npz"; arg_fake := false; arg_depth := 101;
              arg_eval := true; arg_validation := None; arg_batch := 32 |} eq_refl
           (eval_on_ILSVRC12 {| _loss_scale := 1; num_blocks := [3; 4; 23; 3] |}
              (ModelLoader (Some "model.npz"))
              (ValDataflow (Some "/data/ILSVRC12") 128 (fbresnet_augmentor false) None))).
  vm_compute. do 4 right. left. reflexivity.
Defined.

(** The order of an evaluation run, whatever raises: the validation dataflow
    is requested before the model is constructed, the model is constructed
    before the loader is asked for, and the loader is asked for before the
    evaluation starts; a run that returns made the five calls of
    [eval_calls], which takes a depth of 50, 101 or 152. *)
Theorem eval_run_order raises hvd_size hvd_rank hostname args :
  arg_eval args = true ->
  precedes (get_val_dataflow (arg_data args) 128 (fbresnet_augmentor false) None)
           (ImageNetModel_init "NCHW")
           (fst (main raises hvd_size hvd_rank hostname args [])) /\
  (forall filename,
     precedes (ImageNetModel_init "NCHW") (get_model_loader filename)
              (fst (main raises hvd_size hvd_rank hostname args []))) /\
  (forall m s ds,
     precedes (get_model_loader (arg_load args)) (eval_on_ILSVRC12 m s ds)
              (fst (main raises hvd_size hvd_rank hostname args []))) /\
  (snd (main raises hvd_size hvd_rank hostname args []) = inr tt ->
   fst (main raises hvd_size hvd_rank hostname args []) =
     eval_calls hostname args (eval_model args) /\
   (arg_depth args = 50 \/ arg_depth args = 101 \/ arg_depth args = 152)).
Proof.
  intros Heval.
  destruct (main_eval_prefix raises hvd_size hvd_rank hostname args Heval)
    as [(n & Hn) Hall].
  split; [| split; [| split]].
  - rewrite Hn. apply precedes_initial_part. unfold eval_calls.
    apply precedes_skip; [discriminate |]. apply precedes_here. discriminate.
  - intros filename. rewrite Hn. apply precedes_initial_part. unfold eval_calls.
    do 2 (apply precedes_skip; [discriminate |]). apply precedes_here. discriminate.
  - intros m s ds. rewrite Hn. apply precedes_initial_part. unfold eval_calls.
    do 3 (apply precedes_skip; [discriminate |]). apply precedes_here. discriminate.
  - intros Hok. destruct (Hall Hok) as [Htr [blocks Hdepth]]. split; [exact Htr |].
    destruct (Z.eq_dec (arg_depth args) 50) as [| N50]; [now left |].
    destruct (Z.eq_dec (arg_depth args) 101) as [| N101]; [now right; left |].
    destruct (Z.eq_dec (arg_depth args) 152) as [| N152]; [now right; right |].
    rewrite num_blocks_other in Hdepth by assumption. discriminate.
Qed.

Lemma eval_run_order_witness :
  fst (main never_raises 1 0 "node0"
         {| arg_data := Some "/data/ILSVRC12"; arg_logdir := "train_log/tmp";
            arg_load := Some "model.npz"; arg_fake := false; arg_depth := 101;
            arg_eval := true; arg_validation := None; arg_batch := 32 |} []) =
  eval_calls "node0"
    {| arg_data := Some "/data/ILSVRC12"; arg_logdir := "train_log/tmp";
       arg_load := Some "model.npz"; arg_fake := false; arg_depth := 101;
       arg_eval := true; arg_validation := None; arg_batch := 32 |}
    {| _loss_scale := 1; num_blocks := [3; 4; 23; 3] |}.
Proof.
  destruct (eval_run_order never_raises 1 0 "node0"
         {| arg_data := Some "/data/ILSVRC12"; arg_logdir := "train_log/tmp";
            arg_load := Some "model.npz"; arg_fake := false; arg_depth := 101;
            arg_eval := true; arg_validation := None; arg_batch := 32 |} eq_refl)
    as (_ & _ & _ & Hall).
  destruct Hall as [Htr _]; [reflexivity |]. rewrite Htr. reflexivity.
Defined.

(** ** The input endpoint *)

Lemma to_int_proper (z : Z) :
  Z.to_int z <> Decimal.Pos Decimal.Nil /\ Z.to_int z <> Decimal.Neg Decimal.Nil.
Proof.
  destruct z as [| p | p]; cbn; split; try discriminate;
    intros [= E]; now apply (DecimalPos.Unsigned.to_uint_nonnil p).
Qed.

(** Reading the decimal string of an integer gives the integer back. *)
Lemma str_round_trip (z : Z) :
  option_map Z.of_int (NilZero.int_of_string (str z)) = Some z.
Proof.
  unfold str. destruct (to_int_proper z) as [Hp Hn].
  rewrite NilZero.isi by assumption. cbn. now rewrite DecimalZ.of_to.
Qed.

Lemma append_inj_r (p a b : string) : p +:+ a = p +:+ b -> a = b.
Proof.
  induction p as [| c p IH]; cbn; [trivial |]. intros [= E]. now apply IH.
Qed.

(** With real data the input source is a staged ZMQ input that connects to
    (does not bind) the endpoint named after the per-worker batch size, with
    a high-water mark of 30.  The source depends on the per-worker batch size
    only, not on the number of workers, and two runs read from the same
    endpoint exactly when their per-worker batch sizes are the same. *)
Theorem train_endpoint_by_batch raises hvd_size hvd_rank args m
        raises' hvd_size' hvd_rank' args' m' :
  quiet raises -> quiet raises' ->
  arg_batch args * hvd_size <> 0 ->
  arg_batch args' * hvd_size' <> 0 ->
  exists tr cfg tr' cfg',
    get_config raises hvd_size hvd_rank args m false [] = (tr, inr cfg) /\
    get_config raises' hvd_size' hvd_rank' args' m' false [] = (tr', inr cfg') /\
    data cfg =
      StagingInput
        (ZMQInput ("ipc://@imagenet-train-b" +:+ str (arg_batch args)) 30 false)
        (Some 1) /\
    (data cfg = data cfg' <-> arg_batch args = arg_batch args').
Proof.
  intros Hq Hq' Hnz Hnz'.
  rewrite (get_config_run raises hvd_size hvd_rank args m false [] Hq) by now right.
  rewrite (get_config_run raises' hvd_size' hvd_rank' args' m' false [] Hq')
    by now right.
  eexists _, _, _, _. split; [reflexivity |]. split; [reflexivity |].
  cbn [data config_data]. split; [reflexivity |]. split.
  - intros [= E]. apply append_inj_r in E.
    pose proof (str_round_trip (arg_batch args)) as R.
    rewrite E, str_round_trip in R. now injection R.
  - intros ->. reflexivity.
Qed.

Lemma train_endpoint_by_batch_witness :
  exists tr cfg tr' cfg',
    get_config never_raises 8 0 default_args (resnet50 (1 # 8)) false [] = (tr, inr cfg) /\
    get_config never_raises 16 5 (with_batch 64 default_args) (resnet50 (1 # 16)) false []
      = (tr', inr cfg') /\
    data cfg = StagingInput (ZMQInput "ipc://@imagenet-train-b32" 30 false) (Some 1) /\
    data cfg <> data cfg'.
Proof.
  destruct (train_endpoint_by_batch never_raises 8 0 default_args (resnet50 (1 # 8))
              never_raises 16 5 (with_batch 64 default_args) (resnet50 (1 # 16))
              never_raises_quiet never_raises_quiet)
    as (tr & cfg & tr' & cfg' & Hrun & Hrun' & Hdata & Hiff).
  - vm_compute. discriminate.
  - vm_compute. discriminate.
  - exists tr, cfg, tr', cfg'. split; [exact Hrun |]. split; [exact Hrun' |].
    split; [exact Hdata |]. intros E. apply Hiff in E. vm_compute in E. discriminate.
Defined.

(** ** The model, further *)

(** Whatever raises, a model that [Model.__init__] returns has a depth of 50,
    101 or 152, four block counts, and as many layers as its depth says:
    three per bottleneck block plus the first convolution and the final
    layer; it carries the loss scale it was given, and the only call made is
    the constructor of the base class. *)
Theorem Model_init_depth_formula raises depth loss_scale tr tr' (m : Model) :
  Model_init raises depth loss_scale tr = (tr', inr m) ->
  (depth = 50 \/ depth = 101 \/ depth = 152) /\
  length (num_blocks m) = 4%nat /\
  3 * sum_list (num_blocks m) + 2 = depth /\
  _loss_scale m = loss_scale /\
  tr' = tr ++ [ImageNetModel_init "NCHW"].
Proof.
  unfold Model_init, bind, call. destruct (raises tr _); [discriminate |].
  destruct (Z.eq_dec depth 50) as [-> | N50].
  { intros [= <- <-]. repeat split. now left. }
  destruct (Z.eq_dec depth 101) as [-> | N101].
  { intros [= <- <-]. repeat split. now right; left. }
  destruct (Z.eq_dec depth 152) as [-> | N152].
  { intros [= <- <-]. repeat split. now right; right. }
  rewrite num_blocks_other by assumption. discriminate.
Qed.

Lemma Model_init_depth_formula_witness :
  3 * sum_list [3; 8; 36; 3] + 2 = 152.
Proof.
  apply (Model_init_depth_formula never_raises 152 1 [] [ImageNetModel_init "NCHW"]
           {| _loss_scale := 1; num_blocks := [3; 8; 36; 3] |} eq_refl).
Defined.

(** The test on the loss scale in [build_graph] only saves a multiplication:
    for every model, the loss evaluates to the cost of the base class times
    the loss scale, whichever branch is taken. *)
Theorem build_graph_value (self : Model) (inputs : list string)
        (base : list string -> Q) :
  (tensor_value base (build_graph self inputs) == base inputs * _loss_scale self)%Q.
Proof.
  unfold build_graph, Qneb.
  destruct (Qeq_bool (_loss_scale self) 1) eqn:E; cbn [negb tensor_value].
  - apply Qeq_bool_iff in E. rewrite E. ring.
  - reflexivity.
Qed.

Lemma tensor_value_scaled (self : Model) (inputs : list string) (c : Q) :
  (tensor_value (fun _ => c) (build_graph self inputs) == c * _loss_scale self)%Q.
Proof.
  unfold build_graph, Qneb.
  destruct (Qeq_bool (_loss_scale self) 1) eqn:E; cbn [negb tensor_value].
  - apply Qeq_bool_iff in E. rewrite E. ring.
  - reflexivity.
Qed.

Lemma sum_scaled_losses (self : Model) (inputs : list string) (costs : list Q) :
  (sum_Q (map (fun c => tensor_value (fun _ => c) (build_graph self inputs)) costs)
   == sum_Q costs * _loss_scale self)%Q.
Proof.
  induction costs as [| c costs IH]; cbn [map sum_Q fold_right].
  - ring.
  - fold (sum_Q costs).
    fold (sum_Q (map (fun c => tensor_value (fun _ => c) (build_graph self inputs)) costs)).
    rewrite IH, tensor_value_scaled. ring.
Qed.

(** Why the loss is scaled by [1.0 / hvd.size()]: when each of the workers
    builds its loss with that scale, the sum of the losses over the workers
    (what a non-averaging allreduce forms) is the mean of their base costs. *)
Theorem scaled_losses_sum_to_mean (costs : list Q) (blocks : list Z)
        (inputs : list string) :
  costs <> [] ->
  let hvd_size := Z.of_nat (length costs) in
  let self := {| _loss_scale := 1 / inject_Z hvd_size; num_blocks := blocks |} in
  (sum_Q (map (fun c => tensor_value (fun _ => c) (build_graph self inputs)) costs)
   == sum_Q costs / inject_Z hvd_size)%Q.
Proof.
  intros Hne hvd_size self. rewrite sum_scaled_losses. cbn [_loss_scale self].
  assert (Hnz : ~ (inject_Z hvd_size == 0)%Q).
  { unfold hvd_size, Qeq. cbn. destruct costs; [congruence | cbn; lia]. }
  field. exact Hnz.
Qed.

Lemma scaled_losses_sum_to_mean_witness :
  (sum_Q (map (fun c => tensor_value (fun _ => c)
                          (build_graph {| _loss_scale := 1 / inject_Z 2;
                                          num_blocks := [3; 4; 6; 3]%Z |}
                                       ["input"; "label"]))
              [6 # 1; 2 # 1]) == 4 # 1)%Q.
Proof.
  rewrite (scaled_losses_sum_to_mean [6 # 1; 2 # 1] [3; 4; 6; 3] ["input"; "label"])
    by discriminate.
  reflexivity.
Defined.

(** ** The aggregated error, further *)

Lemma sum_count_bounds (err_stats : list RatioCounter) :
  Forall (fun s => 0 <= count s <= total s) err_stats ->
  0 <= sum_count err_stats <= sum_total err_stats.
Proof.
  unfold sum_count, sum_total.
  induction 1 as [| s rest Hs _ IH]; cbn [map fold_right]; lia.
Qed.

(** The aggregated error is a rate: when no worker counts more wrong
    examples than examples, some example was seen and the examples of all
    workers together are at most 2^24 (so that float32 holds every sum as it
    is), the result lies between 0 and 1. *)
Theorem aggregated_error_in_unit_interval (err_stats : list RatioCounter) :
  Forall (fun s => 0 <= count s <= total s) err_stats ->
  0 < sum_total err_stats <= 2 ^ 24 ->
  exists rate,
    _after_inference err_stats = Some rate /\ (0 <= rate <= 1)%Q.
Proof.
  intros Hall [Hpos Hmax].
  destruct (sum_count_bounds err_stats Hall) as [Hlo Hhi].
  rewrite after_inference_ratio; [| | exact Hpos].
  - eexists. split; [reflexivity |]. rewrite Qmult_1_r.
    rewrite Zle_Qle in Hlo, Hhi. rewrite Zlt_Qlt in Hpos.
    change (inject_Z 0) with 0%Q in *.
    split.
    + apply Qle_shift_div_l; [exact Hpos | lra].
    + apply Qle_shift_div_r; [exact Hpos | lra].
  - split; [| split; lia].
    eapply List.Forall_impl; [| exact Hall]. cbn. intros s Hs. lia.
Qed.

Lemma aggregated_error_in_unit_interval_witness :
  exists rate,
    _after_inference [ {| total := 16667; count := 4001 |};
                       {| total := 16667; count := 0 |};
                       {| total := 16666; count := 16666 |} ] = Some rate /\
    (0 <= rate <= 1)%Q.
Proof.
  apply aggregated_error_in_unit_interval.
  - repeat constructor; cbn; lia.
  - split; [reflexivity | discriminate].
Defined.

Lemma sum_total_Permutation (l l' : list RatioCounter) :
  Permutation l l' -> sum_total l = sum_total l' /\ sum_count l = sum_count l'.
Proof.
  unfold sum_total, sum_count.
  induction 1 as [| x l l' _ IH | x y l | l l' l'' _ IH1 _ IH2];
    cbn [map fold_right]; lia.
Qed.

(** Within the range float32 holds (no negative total or count, sums of at
    most 2^24), the aggregated error does not depend on which worker has
    which rank: permuting the workers leaves the result the same.  (Beyond
    that range the float32 sum depends on the order.) *)
Theorem aggregated_error_rank_independent (err_stats err_stats' : list RatioCounter) :
  Permutation err_stats err_stats' ->
  float32_exact err_stats ->
  0 < sum_total err_stats ->
  exists rate,
    _after_inference err_stats = Some rate /\
    _after_inference err_stats' = Some rate.
Proof.
  intros Hperm (Hall & Hmt & Hmc) Hpos.
  destruct (sum_total_Permutation _ _ Hperm) as [Ht Hc].
  rewrite (after_inference_ratio err_stats) by (repeat split; assumption).
  rewrite (after_inference_ratio err_stats').
  - rewrite Ht, Hc. now eexists.
  - split; [| split; lia].
    exact (Permutation_Forall Hperm Hall).
  - lia.
Qed.

Lemma aggregated_error_rank_independent_witness :
  exists rate,
    _after_inference [ {| total := 1; count := 1 |}; {| total := 3; count := 0 |} ]
      = Some rate /\
    _after_inference [ {| total := 3; count := 0 |}; {| total := 1; count := 1 |} ]
      = Some rate.
Proof.
  apply aggregated_error_rank_independent.
  - apply perm_swap.
  - split; [| split; discriminate]. repeat constructor; discriminate.
  - reflexivity.
Defined.

(** Beyond 2^24 the order of the ranks shows: a worker with 16777216
    examples followed by two workers with one wrong example each reports
    2/16777216, and the same workers with the large one last report
    2/16777218. *)
Example aggregated_error_order_beyond_range :
  _after_inference [ {| total := 16777216; count := 0 |}; {| total := 1; count := 1 |};
                     {| total := 1; count := 1 |} ] = Some (2 * 1 / inject_Z 16777216)%Q /\
  _after_inference [ {| total := 1; count := 1 |}; {| total := 1; count := 1 |};
                     {| total := 16777216; count := 0 |} ] = Some (2 * 1 / inject_Z 16777218)%Q.
Proof. split; vm_compute; reflexivity. Qed.

Lemma sum_equal_splits (t : Z) (err_stats : list RatioCounter) :
  0 < t ->
  Forall (fun s => total s = t) err_stats ->
  sum_total err_stats = Z.of_nat (length err_stats) * t /\
  (fold_right Qplus 0 (map (fun s => inject_Z (count s) / inject_Z (total s)) err_stats)
   == inject_Z (sum_count err_stats) / inject_Z t)%Q.
Proof.
  intros Hpos. unfold sum_total, sum_count.
  assert (Hnz : ~ (inject_Z t == 0)%Q) by (unfold Qeq; cbn; lia).
  induction 1 as [| s rest Hs _ [IHt IHc]]; cbn [map fold_right length].
  - split; [lia |]. change (inject_Z 0) with 0%Q. field. exact Hnz.
  - split; [lia |]. rewrite IHc, Hs, inject_Z_plus. field. exact Hnz.
Qed.

(** When every worker has seen the same positive number of examples (equal
    validation splits), within the range float32 holds (no negative count,
    at most 2^24 examples and at most 2^24 wrong ones in all), summing before
    dividing and averaging the local ratios agree: the aggregated error is
    the mean of the workers' error rates.  One worker alone reports its own
    rate. *)
Theorem aggregated_error_equal_splits (t : Z) (err_stats : list RatioCounter) :
  0 < t ->
  err_stats <> [] ->
  Forall (fun s => total s = t /\ 0 <= count s) err_stats ->
  sum_total err_stats <= 2 ^ 24 ->
  sum_count err_stats <= 2 ^ 24 ->
  exists rate,
    _after_inference err_stats = Some rate /\
    (rate == mean_of_local_ratios err_stats)%Q /\
    (forall s, err_stats = [s] -> (rate == inject_Z (count s) / inject_Z (total s))%Q).
Proof.
  intros Hpos Hne Hall Hmt Hmc.
  assert (Htot : Forall (fun s => total s = t) err_stats)
    by (eapply List.Forall_impl; [| exact Hall]; now intros s [? _]).
  destruct (sum_equal_splits t err_stats Hpos Htot) as [Ht Hc].
  assert (Hlen : 0 < Z.of_nat (length err_stats))
    by (destruct err_stats; [congruence | cbn; lia]).
  rewrite after_inference_ratio; [| | nia].
  2: { split; [| split; assumption].
       eapply List.Forall_impl; [| exact Hall]. cbn. intros s [-> ?]. lia. }
  eexists. split; [reflexivity |].
  assert (Hmean : (inject_Z (sum_count err_stats) * 1 / inject_Z (sum_total err_stats)
                   == mean_of_local_ratios err_stats)%Q).
  { unfold mean_of_local_ratios. rewrite Hc, Ht, inject_Z_mult. field.
    split; unfold Qeq; cbn; lia. }
  split; [exact Hmean |].
  intros s ->. rewrite Hmean. unfold mean_of_local_ratios. cbn.
  inversion Htot as [| ? ? Hs _]; subst. field. unfold Qeq; cbn; lia.
Qed.

Lemma aggregated_error_equal_splits_witness :
  exists rate,
    _after_inference [ {| total := 25000; count := 6100 |};
                       {| total := 25000; count := 5900 |} ] = Some rate /\
    (rate == mean_of_local_ratios [ {| total := 25000; count := 6100 |};
                                    {| total := 25000; count := 5900 |} ])%Q.
Proof.
  destruct (aggregated_error_equal_splits 25000
              [ {| total := 25000; count := 6100 |};
                {| total := 25000; count := 5900 |} ]) as (rate & Hrun & Hmean & _).
  - reflexivity.
  - discriminate.
  - repeat constructor; discriminate.
  - discriminate.
  - discriminate.
  - exists rate. split; [exact Hrun | exact Hmean].
Defined.

(** ** What a training run launches *)

(** A training run that returns has launched the trainer exactly once, as
    its last call, with a non-averaging [HorovodTrainer] and the
    configuration of [get_config] around a model of loss scale
    [1 / hvd.size()]: 35 epochs of 50 steps with [--fake], 90 epochs
    otherwise. *)
Theorem training_run_launches_last raises hvd_size hvd_rank hostname args :
  arg_eval args = false ->
  snd (main raises hvd_size hvd_rank hostname args []) = inr tt ->
  exists tr cfg,
    fst (main raises hvd_size hvd_rank hostname args []) =
      tr ++ [launch_train_with_config cfg (HorovodTrainer false)] /\
    (forall cfg' t, ~ In (launch_train_with_config cfg' t) tr) /\
    (_loss_scale (model cfg) == 1 / inject_Z hvd_size)%Q /\
    max_epoch cfg = (if arg_fake args then 35 else 90) /\
    (arg_fake args = true -> steps_per_epoch cfg = 50) /\
    (arg_fake args = false ->
     steps_per_epoch cfg =
       np_round (inject_Z 1281167 / inject_Z (arg_batch args * hvd_size))).
Proof.
  intros Heval Hok.
  destruct (proj2 (main_training_prefix raises hvd_size hvd_rank hostname args Heval) Hok)
    as (Htr & _).
  rewrite Htr. unfold training_calls.
  exists ([logger_info "Running on {}" [FStr hostname]; hvd_init] ++
          (if hvd_rank =? 0 then [logger_set_logger_dir (arg_logdir args) "d"] else []) ++
          [ImageNetModel_init "NCHW"] ++
          config_calls hvd_size hvd_rank args (arg_fake args)),
         (training_config hvd_size hvd_rank args).
  split; [now rewrite <- !app_assoc |]. split.
  - intros cfg' t. rewrite !in_app_iff.
    intros [[H | [H | []]] | [H | [[H | []] | H]]]; try discriminate.
    + destruct (hvd_rank =? 0); [destruct H as [H | []]; discriminate | destruct H].
    + apply In_config_calls in H. destruct H as [(f & a & H) | (splits & H)]; discriminate.
  - cbn [training_config model _loss_scale max_epoch steps_per_epoch].
    split; [reflexivity |]. split; [reflexivity |].
    unfold steps_for. split; intros ->; reflexivity.
Qed.

Lemma training_run_launches_last_witness :
  exists tr cfg,
    fst (main never_raises 8 0 "node0"
           {| arg_data := None; arg_logdir := "train_log/tmp"; arg_load := None;
              arg_fake := true; arg_depth := 50; arg_eval := false;
              arg_validation := None; arg_batch := 32 |} []) =
      tr ++ [launch_train_with_config cfg (HorovodTrainer false)] /\
    max_epoch cfg = 35 /\ steps_per_epoch cfg = 50.
Proof.
  destruct (training_run_launches_last never_raises 8 0 "node0"
           {| arg_data := None; arg_logdir := "train_log/tmp"; arg_load := None;
              arg_fake := true; arg_depth := 50; arg_eval := false;
              arg_validation := None; arg_batch := 32 |} eq_refl)
    as (tr & cfg & Htr & _ & _ & Hep & Hsteps & _).
  - vm_compute. reflexivity.
  - exists tr, cfg. split; [exact Htr |]. split; [exact Hep | now apply Hsteps].
Defined.
